(** * Task/status ordering engine of the project-management backend

    A shallow embedding of the kanban handlers of [server.js] and of the
    [Task] and [ProjectStatus] models ([models/Task.js],
    [models/ProjectStatus.js]): the relational store is a pair of tables,
    every awaited ORM call is a step of a small state-and-error monad
    that may be rejected by the storage layer, and every express handler
    is a function from the store to a response and a store.

    Modelling conventions.
    - A row carries the attributes its model declares, under the names
      the model gives them ([projectId], [createdBy], ... for a task).
      A handler that reads a property under another name reads
      [undefined]; a key of a values object that names no attribute is
      dropped by [build] and [set], as Sequelize does.
    - Sequelize rejects a where clause that gives [undefined] for a key
      before it sends any statement.
    - Integers are unbounded ([Z]); identifiers received in a request are
      integers; strings are strings of ASCII characters.
    - The handlers open no transaction, so the store after a rejected call
      is the store the fulfilled calls before it have produced.
    - The [created_at] and [updated_at] columns are not modelled. *)

From Stdlib Require Import ZArith List String Ascii Bool Lia Permutation Sorted.
Import ListNotations.
Open Scope string_scope.
Open Scope Z_scope.

(* ------------------------------------------------------------------ *)
(** ** Small helpers *)

Definition option_Z_eqb (a b : option Z) : bool :=
  match a, b with
  | Some x, Some y => x =? y
  | None, None => true
  | _, _ => false
  end.

(** [findOne] with [order: [[key, 'DESC']]]: a row whose key is maximal. *)
Fixpoint top_by {A} (key : A -> Z) (rows : list A) : option A :=
  match rows with
  | [] => None
  | r :: rest =>
      match top_by key rest with
      | Some m => if key r <? key m then Some m else Some r
      | None => Some r
      end
  end.

(** [findAll] with [order: [[key, 'ASC']]]. *)
Fixpoint insert_by {A} (key : A -> Z) (x : A) (rows : list A) : list A :=
  match rows with
  | [] => [x]
  | r :: rest => if key x <=? key r then x :: r :: rest
                 else r :: insert_by key x rest
  end.

Definition sort_by {A} (key : A -> Z) (rows : list A) : list A :=
  fold_right (insert_by key) [] rows.

(** The white space of a regular expression ([\s]) among the ASCII
    characters. *)
Definition is_whitespace (c : ascii) : bool :=
  let n := Z.of_nat (nat_of_ascii c) in
  ((9 <=? n) && (n <=? 13)) || (n =? 32).

(** A string between double quotes. *)
Definition quoted (s : string) : string :=
  String "034"%char (s ++ String "034"%char EmptyString).

(** The message of the error Sequelize throws for a where clause whose
    value for [key] is [undefined]. *)
Definition invalid_undefined (key : string) : string :=
  "WHERE parameter " ++ quoted key ++ " has invalid " ++ quoted "undefined"
  ++ " value".

(* ------------------------------------------------------------------ *)
(** ** The values of the coarse status (server.js) *)

(** The strings ['todo'], ['in-progress'] and ['completed'] that the
    handlers pass under the key [status] and the hook compares with. *)
Inductive Status := todo | in_progress | completed.

(** A value of [statusMapping[key] || 'todo']: one of the three strings,
    or a member that the object literal inherits from [Object.prototype]
    (a function, or the prototype itself; all of them truthy). *)
Inductive StatusValue :=
| Own (s : Status)
| Inherited (member : string).

(** [value === 'completed']; [None] is [undefined]. *)
Definition is_completed (value : option StatusValue) : bool :=
  match value with
  | Some (Own completed) => true
  | _ => false
  end.

(* ------------------------------------------------------------------ *)
(** ** The [Task] model (models/Task.js) *)

Module Task.

(** ENUM('low', 'medium', 'high') *)
Inductive Priority := low | medium | high.

(** The attributes of the model.  [projectId], [assignedTo], [createdBy],
    [dueDate] and [completedAt] are stored in the columns [project_id],
    [assigned_to], [created_by], [due_date] and [completed_at]; the model
    declares no attribute [status]. *)
Record t := mk {
  id : Z;
  title : string;
  description : option string;
  status_id : option Z;
  position : Z;
  priority : Priority;
  projectId : Z;
  assignedTo : option Z;
  createdBy : Z;
  dueDate : option Z;
  completedAt : option Z
}.

Definition attributes : list string :=
  [ "id"; "title"; "description"; "status_id"; "position"; "priority";
    "projectId"; "assignedTo"; "createdBy"; "dueDate"; "completedAt" ].

Definition is_attribute (key : string) : bool :=
  existsb (String.eqb key) attributes.

(** [task.project_id]: an instance has a property for each attribute;
    [project_id] names a column, not an attribute, and the read gives
    [undefined] ([None]). *)
Definition project_id (task : t) : option Z :=
  if is_attribute "project_id" then Some (projectId task) else None.

(** [task.status], also of [task._previousDataValues]: no attribute and,
    on an instance that the ORM has built, no property; the read gives
    [undefined] ([None]). *)
Definition status (task : t) : option StatusValue := None.

Definition set_position (p : Z) (r : t) : t :=
  mk (id r) (title r) (description r) (status_id r) p
     (priority r) (projectId r) (assignedTo r) (createdBy r)
     (dueDate r) (completedAt r).

Definition set_status_id (s : option Z) (r : t) : t :=
  mk (id r) (title r) (description r) s (position r)
     (priority r) (projectId r) (assignedTo r) (createdBy r)
     (dueDate r) (completedAt r).

Definition set_completedAt (c : option Z) (r : t) : t :=
  mk (id r) (title r) (description r) (status_id r) (position r)
     (priority r) (projectId r) (assignedTo r) (createdBy r)
     (dueDate r) c.

(** [Task.findByPk(id)] *)
Definition findByPk (rows : list t) (pk : Z) : option t :=
  find (fun r => id r =? pk) rows.

(** The static [Task.update(values, { where })]: one UPDATE statement. *)
Definition update (values : t -> t) (where_ : t -> bool) (rows : list t)
  : list t :=
  map (fun r => if where_ r then values r else r) rows.

(** [sequelize.literal('position - 1')] and [('position + 1')]. *)
Definition position_minus_1 (r : t) : t := set_position (position r - 1) r.
Definition position_plus_1 (r : t) : t := set_position (position r + 1) r.

(** The values object handed to the instance method [task.update], with
    the keys the handlers give it. *)
Record Values := {
  v_status_id : option (option Z);
  v_position : option Z;
  v_status : option StatusValue
}.

(** [instance.set(values)]: a key that is not an attribute is skipped,
    so the value under [status] goes nowhere. *)
Definition set (v : Values) (inst : t) : t :=
  let i1 := match v_status_id v with Some s => set_status_id s inst
                                  | None => inst end in
  match v_position v with Some p => set_position p i1
                       | None => i1 end.

(** [task.changed(key)] after [set]: [key] is an attribute whose value
    differs from [_previousDataValues]. *)
Definition changed (key : string) (prev inst : t) : bool :=
  is_attribute key
  && (if String.eqb key "status_id"
      then negb (option_Z_eqb (status_id inst) (status_id prev))
      else if String.eqb key "position"
      then negb (position inst =? position prev)
      else if String.eqb key "completedAt"
      then negb (option_Z_eqb (completedAt inst) (completedAt prev))
      else false).

(** [task.changed()] as [save] asks it after a [set] of the handlers. *)
Definition changed_any (prev inst : t) : bool :=
  changed "status_id" prev inst || changed "position" prev inst
  || changed "status" prev inst.

(** hooks.beforeUpdate, on what it reads of the instance:
    [changed_status] is [task.changed('status')], [status] is
    [task.status] and [previous] is [task._previousDataValues.status]. *)
Definition beforeUpdate (now : Z) (changed_status : bool)
           (status previous : option StatusValue) (task : t) : t :=
  if changed_status then
    if is_completed status && negb (is_completed previous)
    then set_completedAt (Some now) task
    else if negb (is_completed status)
         then set_completedAt None task
         else task
  else task.

(** The hook as [save] calls it on the instance [inst] whose previous
    values are those of [prev]. *)
Definition run_beforeUpdate (now : Z) (prev inst : t) : t :=
  beforeUpdate now (changed "status" prev inst) (status inst) (status prev) inst.

(** The UPDATE issued by [save]: the attributes named in [values], and
    [completedAt] when the hook has changed it, copied from the instance
    into the row with the instance's primary key. *)
Definition write (v : Values) (before_hook inst : t) (row : t) : t :=
  let r1 := match v_status_id v with
            | Some _ => set_status_id (status_id inst) row
            | None => row end in
  let r2 := match v_position v with
            | Some _ => set_position (position inst) r1
            | None => r1 end in
  if option_Z_eqb (completedAt inst) (completedAt before_hook)
  then r2
  else set_completedAt (completedAt inst) r2.

(** The instance method [task.update(values)]: set, run the hook, and
    save; nothing is written when no attribute has changed. *)
Definition update_instance (now : Z) (task : t) (v : Values)
           (rows : list t) : t * list t :=
  let inst := set v task in
  let inst' := run_beforeUpdate now task inst in
  if changed_any task inst
  then (inst', map (fun r => if id r =? id task then write v inst inst' r
                             else r) rows)
  else (inst', rows).

(** [task.destroy()] *)
Definition destroy (task : t) (rows : list t) : list t :=
  filter (fun r => negb (id r =? id task)) rows.

(** What [Task.build] makes of the object handed to [Task.create]: the
    attributes that the object gives, [None] for an attribute it leaves
    out. *)
Record Draft := {
  d_title : option string;
  d_description : option string;
  d_status_id : option Z;
  d_position : option Z;
  d_priority : option Priority;
  d_projectId : option Z;
  d_assignedTo : option Z;
  d_createdBy : option Z;
  d_dueDate : option Z
}.

(** [notEmpty]: the value is not made of white space only. *)
Definition notEmpty (s : string) : bool :=
  negb (forallb is_whitespace (list_ascii_of_string s)).

(** [len: [1, 200]] *)
Definition len_1_200 (s : string) : bool :=
  let n := Z.of_nat (String.length s) in (1 <=? n) && (n <=? 200).

(** The row of a valid draft under the primary key [pk]: [title],
    [projectId] and [createdBy] are [allowNull: false], the title passes
    [len] and [notEmpty], and [position] and [priority] have the defaults
    0 and 'medium'.  [None]: the validation fails. *)
Definition validated (pk : Z) (d : Draft) : option t :=
  match d_title d, d_projectId d, d_createdBy d with
  | Some title, Some projectId, Some createdBy =>
      if len_1_200 title && notEmpty title
      then Some (mk pk title (d_description d) (d_status_id d)
                    (match d_position d with Some p => p | None => 0 end)
                    (match d_priority d with Some p => p | None => medium end)
                    projectId (d_assignedTo d) createdBy (d_dueDate d) None)
      else None
  | _, _, _ => None
  end.

End Task.
(* ------------------------------------------------------------------ *)
(** ** The [ProjectStatus] model (a lane of the board) *)

Module ProjectStatus.

Record t := mk {
  id : Z;
  project_id : Z;
  status_key : string;
  title : string;
  color : string;
  order_index : Z;
  is_default : bool;
  is_active : bool
}.

Definition set_order_index (i : Z) (s : t) : t :=
  mk (id s) (project_id s) (status_key s) (title s) (color s) i
     (is_default s) (is_active s).

Definition findOne (where_ : t -> bool) (rows : list t) : option t :=
  find where_ rows.

Definition update (values : t -> t) (where_ : t -> bool) (rows : list t)
  : list t :=
  map (fun s => if where_ s then values s else s) rows.

End ProjectStatus.

(* ------------------------------------------------------------------ *)
(** ** The store and the monad of awaited calls *)

Record DB := {
  tasks : list Task.t;
  tasks_auto_increment : Z;
  project_statuses : list ProjectStatus.t;
  project_statuses_auto_increment : Z
}.

Definition with_tasks (rows : list Task.t) (d : DB) : DB :=
  {| tasks := rows;
     tasks_auto_increment := tasks_auto_increment d;
     project_statuses := project_statuses d;
     project_statuses_auto_increment := project_statuses_auto_increment d |}.

Definition with_project_statuses (rows : list ProjectStatus.t) (d : DB) : DB :=
  {| tasks := tasks d;
     tasks_auto_increment := tasks_auto_increment d;
     project_statuses := rows;
     project_statuses_auto_increment := project_statuses_auto_increment d |}.

(** The world a handler runs in: the store, and the schedule of storage
    faults, one flag per awaited call ([true]: the call is rejected and
    leaves the store as it is; an exhausted schedule rejects nothing). *)
Record World := { db : DB; faults : list bool }.

Definition calm (d : DB) : World := {| db := d; faults := [] |}.

Inductive Outcome (A : Type) :=
| Resolved (a : A)
| Rejected (message : string).
Arguments Resolved {A} a.
Arguments Rejected {A} message.

Definition Async (A : Type) := World -> Outcome A * World.

Definition ret {A} (a : A) : Async A := fun w => (Resolved a, w).

Definition bind {A B} (c : Async A) (k : A -> Async B) : Async B :=
  fun w => match c w with
           | (Resolved a, w1) => k a w1
           | (Rejected m, w1) => (Rejected m, w1)
           end.

Declare Scope async_scope.
Delimit Scope async_scope with async.
Notation "x <- c ;; k" := (bind c (fun x => k))
  (at level 61, c at next level, right associativity) : async_scope.
Notation "c ;;; k" := (bind c (fun _ => k))
  (at level 61, right associativity) : async_scope.
Open Scope async_scope.

Definition throw {A} (m : string) : Async A := fun w => (Rejected m, w).

(** [await] of one ORM call. *)
Definition await {A} (q : DB -> Outcome A * DB) : Async A :=
  fun w => match faults w with
           | true :: rest =>
               (Rejected "storage error", {| db := db w; faults := rest |})
           | _ => let (o, d) := q (db w) in
                  (o, {| db := d; faults := tl (faults w) |})
           end.

Definition read {A} (f : DB -> A) : DB -> Outcome A * DB :=
  fun d => (Resolved (f d), d).

Definition write_tasks (f : list Task.t -> list Task.t)
  : DB -> Outcome unit * DB :=
  fun d => (Resolved tt, with_tasks (f (tasks d)) d).

(* ------------------------------------------------------------------ *)
(** ** Responses *)

Inductive Json :=
| JTask (task : option Task.t)
| JStatus (s : ProjectStatus.t)
| JStatuses (l : list ProjectStatus.t)
| JMessage (message : string)
| JError (error : string).

Record Response := { code : Z; json : Json }.

Definition res_json (j : Json) : Response := {| code := 200; json := j |}.
Definition res_status (c : Z) (j : Json) : Response := {| code := c; json := j |}.

(** [try { ... } catch (error) { respond }]: the catch blocks of the
    handlers only build a response. *)
Definition try_catch (body : Async Response) (handler : string -> Response)
  : World -> Response * World :=
  fun w => match body w with
           | (Resolved r, w1) => (r, w1)
           | (Rejected m, w1) => (handler m, w1)
           end.

(* ------------------------------------------------------------------ *)
(** ** ORM calls on the store *)

Definition Task_findByPk (pk : Z) : Async (option Task.t) :=
  await (read (fun d => Task.findByPk (tasks d) pk)).

Definition Task_update (values : Task.t -> Task.t) (where_ : Task.t -> bool)
  : Async unit :=
  await (write_tasks (Task.update values where_)).

Definition task_update (now : Z) (task : Task.t) (v : Task.Values)
  : Async Task.t :=
  await (fun d => let (inst, rows) := Task.update_instance now task v (tasks d) in
                  (Resolved inst, with_tasks rows d)).

Definition task_destroy (task : Task.t) : Async unit :=
  await (write_tasks (Task.destroy task)).

(** The where clause [{ status_id: lane }]; [null] is matched by IS NULL. *)
Definition in_lane (lane : option Z) (r : Task.t) : bool :=
  option_Z_eqb (Task.status_id r) lane.

(** [Task.findOne({ where: { status_id }, order: [['position', 'DESC']] })].
    The handler passes [defaultStatus?.id], which is [undefined] ([None])
    without a default lane. *)
Definition Task_findOne_last (status_id : option Z) : Async (option Task.t) :=
  match status_id with
  | None => throw (invalid_undefined "status_id")
  | Some sid =>
      await (read (fun d =>
        top_by Task.position (filter (in_lane (Some sid)) (tasks d))))
  end.

(** The store after the INSERT of [row]. *)
Definition with_new_task (row : Task.t) (d : DB) : DB :=
  {| tasks := tasks d ++ [row];
     tasks_auto_increment := tasks_auto_increment d + 1;
     project_statuses := project_statuses d;
     project_statuses_auto_increment := project_statuses_auto_increment d |}.

(** [Task.create(values)] on the draft that [build] makes of the values:
    validate, then INSERT with the next primary key. *)
Definition Task_create (draft : Task.Draft) : Async Task.t :=
  await (fun d =>
    match Task.validated (tasks_auto_increment d) draft with
    | Some row => (Resolved row, with_new_task row d)
    | None => (Rejected "Validation error", d)
    end).

Definition ProjectStatus_findOne (where_ : ProjectStatus.t -> bool)
  : Async (option ProjectStatus.t) :=
  await (read (fun d => ProjectStatus.findOne where_ (project_statuses d))).

(* ------------------------------------------------------------------ *)
(** ** PUT /api/tasks/:id/status *)

Definition statusMapping : list (string * Status) :=
  [ ("todo", todo);
    ("in-progress", in_progress);
    ("completed", completed) ].

Fixpoint lookup {V} (m : list (string * V)) (k : string) : option V :=
  match m with
  | [] => None
  | (k', v) :: rest => if String.eqb k' k then Some v else lookup rest k
  end.

(** The members that an object literal inherits from [Object.prototype]. *)
Definition Object_prototype : list string :=
  [ "constructor"; "hasOwnProperty"; "isPrototypeOf"; "propertyIsEnumerable";
    "toLocaleString"; "toString"; "valueOf"; "__defineGetter__";
    "__defineSetter__"; "__lookupGetter__"; "__lookupSetter__"; "__proto__" ].

(** [statusMapping[newStatus.status_key] || 'todo']: an own key gives its
    string, an inherited member gives itself, any other key ['todo']. *)
Definition enumStatus (newStatus : ProjectStatus.t) : StatusValue :=
  let key := ProjectStatus.status_key newStatus in
  match lookup statusMapping key with
  | Some s => Own s
  | None => if existsb (String.eqb key) Object_prototype
            then Inherited key else Own todo
  end.

(* The where clauses of the handler. *)

(** [{ id: status_id, project_id, is_active: true }] for a defined
    [project_id]. *)
Definition where_new_status (status_id project_id : Z)
           (s : ProjectStatus.t) : bool :=
  (ProjectStatus.id s =? status_id)
  && (ProjectStatus.project_id s =? project_id)
  && ProjectStatus.is_active s.

(** [ProjectStatus.findOne({ where: { id: status_id,
    project_id: task.project_id, is_active: true } })], on the value the
    handler reads for [task.project_id] ([None]: [undefined]). *)
Definition ProjectStatus_findOne_new_status (status_id : Z)
           (project_id : option Z) : Async (option ProjectStatus.t) :=
  match project_id with
  | None => throw (invalid_undefined "project_id")
  | Some project_id =>
      ProjectStatus_findOne (where_new_status status_id project_id)
  end.

(** [{ status_id, position: { [Op.gt]: oldPosition, [Op.lte]: position } }] *)
Definition where_moving_down (status_id oldPosition position : Z)
           (r : Task.t) : bool :=
  in_lane (Some status_id) r
  && (Task.position r >? oldPosition) && (Task.position r <=? position).

(** [{ status_id, position: { [Op.gte]: position, [Op.lt]: oldPosition } }] *)
Definition where_moving_up (status_id oldPosition position : Z)
           (r : Task.t) : bool :=
  in_lane (Some status_id) r
  && (Task.position r >=? position) && (Task.position r <? oldPosition).

(** [{ status_id: oldStatusId, position: { [Op.gt]: oldPosition } }] *)
Definition where_after_old (oldStatusId : option Z) (oldPosition : Z)
           (r : Task.t) : bool :=
  in_lane oldStatusId r && (Task.position r >? oldPosition).

(** [{ status_id: status_id, position: { [Op.gte]: position } }] *)
Definition where_from_new (status_id position : Z) (r : Task.t) : bool :=
  in_lane (Some status_id) r && (Task.position r >=? position).

(** [{ status_id, position, status: enumStatus }] *)
Definition values_move (status_id position : Z) (newStatus : ProjectStatus.t)
  : Task.Values :=
  {| Task.v_status_id := Some (Some status_id);
     Task.v_position := Some position;
     Task.v_status := Some (enumStatus newStatus) |}.

(** [{ position }] *)
Definition values_position (position : Z) : Task.Values :=
  {| Task.v_status_id := None;
     Task.v_position := Some position;
     Task.v_status := None |}.

Definition PUT_tasks_id_status (now : Z) (id status_id position : Z)
  : World -> Response * World :=
  try_catch
    (task <- Task_findByPk id ;;
     match task with
     | None => ret (res_status 404 (JMessage "Task not found"))
     | Some task =>
       let oldStatusId := Task.status_id task in
       let oldPosition := Task.position task in
       newStatus <- ProjectStatus_findOne_new_status status_id
                      (Task.project_id task) ;;
       match newStatus with
       | None => ret (res_status 400 (JMessage "Invalid status"))
       | Some newStatus =>
         task <-
           (if option_Z_eqb oldStatusId (Some status_id) then
              (if oldPosition <? position then
                 Task_update Task.position_minus_1
                   (where_moving_down status_id oldPosition position)
               else if oldPosition >? position then
                 Task_update Task.position_plus_1
                   (where_moving_up status_id oldPosition position)
               else ret tt) ;;;
              ret task
            else
              Task_update Task.position_minus_1
                (where_after_old oldStatusId oldPosition) ;;;
              Task_update Task.position_plus_1
                (where_from_new status_id position) ;;;
              task_update now task (values_move status_id position newStatus)) ;;
         task <-
           (if option_Z_eqb oldStatusId (Some status_id) then
              task_update now task (values_position position)
            else ret task) ;;
         updatedTask <- Task_findByPk (Task.id task) ;;
         ret (res_json (JTask updatedTask))
       end
     end)
    (fun message => res_status 400 (JMessage message)).

(* ------------------------------------------------------------------ *)
(** ** POST /api/tasks and DELETE /api/tasks/:id *)

Record User := { user_id : Z; role : string }.

Record TaskBody := {
  b_title : string;
  b_description : option string;
  b_priority : option Task.Priority;
  b_project_id : Z;
  b_assigned_to : option Z;
  b_due_date : option Z
}.

(** [req.user?.id || 1] *)
Definition user_id_or_1 (user : option User) : Z :=
  match user with
  | Some u => if user_id u =? 0 then 1 else user_id u
  | None => 1
  end.

(** [{ project_id, status_key: 'todo', is_active: true }] *)
Definition where_default_status (project_id : Z) (s : ProjectStatus.t) : bool :=
  (ProjectStatus.project_id s =? project_id)
  && String.eqb (ProjectStatus.status_key s) "todo"
  && ProjectStatus.is_active s.

(** The object literal that POST /api/tasks hands to [Task.create], key
    by key ([o_status_id] is [None] for [undefined]). *)
Record TaskObject := {
  o_title : string;
  o_description : option string;
  o_status : Status;
  o_status_id : option Z;
  o_position : Z;
  o_priority : option Task.Priority;
  o_project_id : Z;
  o_assigned_to : option Z;
  o_created_by : Z;
  o_due_date : option Z
}.

(** [Task.build] on that object: [title], [description], [status_id],
    [position] and [priority] are attributes; [status], [project_id],
    [assigned_to], [created_by] and [due_date] name no attribute and are
    dropped, so [projectId], [assignedTo], [createdBy] and [dueDate] get
    no value. *)
Definition Task_build (o : TaskObject) : Task.Draft :=
  {| Task.d_title := Some (o_title o);
     Task.d_description := o_description o;
     Task.d_status_id := o_status_id o;
     Task.d_position := Some (o_position o);
     Task.d_priority := o_priority o;
     Task.d_projectId := None;
     Task.d_assignedTo := None;
     Task.d_createdBy := None;
     Task.d_dueDate := None |}.

Definition POST_tasks (user : option User) (body : TaskBody)
  : World -> Response * World :=
  try_catch
    (defaultStatus <- ProjectStatus_findOne
                        (where_default_status (b_project_id body)) ;;
     lastTask <- Task_findOne_last (option_map ProjectStatus.id defaultStatus) ;;
     let newPosition := match lastTask with
                        | Some lastTask => Task.position lastTask + 1
                        | None => 0
                        end in
     task <- Task_create
               (Task_build
                  {| o_title := b_title body;
                     o_description := b_description body;
                     o_status := todo;
                     o_status_id := option_map ProjectStatus.id defaultStatus;
                     o_position := newPosition;
                     o_priority := b_priority body;
                     o_project_id := b_project_id body;
                     o_assigned_to := b_assigned_to body;
                     o_created_by := user_id_or_1 user;
                     o_due_date := b_due_date body |}) ;;
     createdTask <- Task_findByPk (Task.id task) ;;
     ret (res_status 201 (JTask createdTask)))
    (fun message => res_status 400 (JMessage message)).

(** The route runs behind [authenticateToken], which supplies [req.user]. *)
Definition DELETE_tasks_id (user : User) (taskId : Z)
  : World -> Response * World :=
  try_catch
    (task <- Task_findByPk taskId ;;
     match task with
     | None => ret (res_status 404 (JError "Task not found"))
     | Some task =>
       if negb (String.eqb (role user) "admin")
          && negb (Task.createdBy task =? user_id user)
       then ret (res_status 403 (JError "Access denied"))
       else
         task_destroy task ;;;
         ret (res_json (JMessage "Task deleted successfully"))
     end)
    (fun _ => res_status 500 (JError "Failed to delete task")).

(* ------------------------------------------------------------------ *)
(** ** POST /api/statuses *)

Record StatusBody := {
  sb_title : string;
  sb_color : option string;
  sb_project_id : Z;
  sb_status_key : option string
}.

Definition toLowerCase_ascii (c : ascii) : ascii :=
  let n := nat_of_ascii c in
  if ((65 <=? Z.of_nat n) && (Z.of_nat n <=? 90))
  then ascii_of_nat (n + 32) else c.

Definition is_key_char (c : ascii) : bool :=
  let n := Z.of_nat (nat_of_ascii c) in
  ((97 <=? n) && (n <=? 122)) || ((48 <=? n) && (n <=? 57)) || (n =? 45).

(** [.replace(/\s+/g, '-')] *)
Fixpoint hyphenate (in_run : bool) (cs : list ascii) : list ascii :=
  match cs with
  | [] => []
  | c :: rest =>
      if is_whitespace c
      then if in_run then hyphenate true rest
           else "-"%char :: hyphenate true rest
      else c :: hyphenate false rest
  end.

(** [title.toLowerCase().replace(/\s+/g, '-').replace(/[^a-z0-9-]/g, '')] *)
Definition generate_key (title : string) : string :=
  string_of_list_ascii
    (filter is_key_char
       (hyphenate false (map toLowerCase_ascii (list_ascii_of_string title)))).

(** [a || b] on strings that may be absent: the empty string is falsy. *)
Definition or_string (a : option string) (b : string) : string :=
  match a with
  | Some x => if String.eqb x "" then b else x
  | None => b
  end.

(** The unique index on [(project_id, status_key)]. *)
Definition key_taken (project_id : Z) (key : string)
           (lanes : list ProjectStatus.t) : bool :=
  existsb (fun s => (ProjectStatus.project_id s =? project_id)
                    && String.eqb (ProjectStatus.status_key s) key) lanes.

(** [ProjectStatus.create]: INSERT under the unique index. *)
Definition ProjectStatus_create (values : ProjectStatus.t)
  : Async ProjectStatus.t :=
  await (fun d =>
    if key_taken (ProjectStatus.project_id values)
                 (ProjectStatus.status_key values) (project_statuses d)
    then (Rejected "Validation error", d)
    else
      let row := ProjectStatus.mk (project_statuses_auto_increment d)
                   (ProjectStatus.project_id values)
                   (ProjectStatus.status_key values)
                   (ProjectStatus.title values) (ProjectStatus.color values)
                   (ProjectStatus.order_index values)
                   (ProjectStatus.is_default values)
                   (ProjectStatus.is_active values) in
      (Resolved row,
       {| tasks := tasks d;
          tasks_auto_increment := tasks_auto_increment d;
          project_statuses := project_statuses d ++ [row];
          project_statuses_auto_increment :=
            project_statuses_auto_increment d + 1 |})).

(** The where clause [{ project_id }]. *)
Definition lanes_of (projectId : Z) (lanes : list ProjectStatus.t)
  : list ProjectStatus.t :=
  filter (fun s => ProjectStatus.project_id s =? projectId) lanes.

Definition POST_statuses (body : StatusBody) : World -> Response * World :=
  try_catch
    (if String.eqb (sb_title body) "" || (sb_project_id body =? 0)
     then ret (res_status 400 (JMessage "Title and project_id are required"))
     else
       lastStatus <- await (read (fun d =>
                       top_by ProjectStatus.order_index
                         (lanes_of (sb_project_id body) (project_statuses d)))) ;;
       let newOrderIndex := match lastStatus with
                            | Some lastStatus =>
                                ProjectStatus.order_index lastStatus + 1
                            | None => 0
                            end in
       let generatedKey := or_string (sb_status_key body)
                                     (generate_key (sb_title body)) in
       status <- ProjectStatus_create
                   (ProjectStatus.mk 0 (sb_project_id body) generatedKey
                      (sb_title body) (or_string (sb_color body) "#6b7280")
                      newOrderIndex false true) ;;
       ret (res_status 201 (JStatus status)))
    (fun message => res_status 400 (JMessage message)).

(* ------------------------------------------------------------------ *)
(** ** PUT /api/statuses/reorder/:projectId *)

Definition first_rejection (a b : Outcome unit) : Outcome unit :=
  match a with
  | Rejected m => Rejected m
  | Resolved _ => b
  end.

(** [Promise.all(statusIds.map((statusId, index) => ProjectStatus.update(
    { order_index: index }, { where: { id: statusId, project_id } })))]:
    every UPDATE is issued, whether or not another one is rejected. *)
Fixpoint Promise_all_updates (projectId : Z) (statusIds : list Z) (index : Z)
  : Async unit :=
  match statusIds with
  | [] => ret tt
  | statusId :: rest => fun w =>
      let (o1, w1) :=
        await (fun d =>
          (Resolved tt,
           with_project_statuses
             (ProjectStatus.update (ProjectStatus.set_order_index index)
                (fun s => (ProjectStatus.id s =? statusId)
                          && (ProjectStatus.project_id s =? projectId))
                (project_statuses d)) d)) w in
      let (o2, w2) := Promise_all_updates projectId rest (index + 1) w1 in
      (first_rejection o1 o2, w2)
  end.

(** [statusIds] is [None] when the body does not carry an array. *)
Definition PUT_statuses_reorder (projectId : Z) (statusIds : option (list Z))
  : World -> Response * World :=
  try_catch
    (match statusIds with
     | None => ret (res_status 400 (JMessage "statusIds must be an array"))
     | Some statusIds =>
       Promise_all_updates projectId statusIds 0 ;;;
       updatedStatuses <- await (read (fun d =>
         sort_by ProjectStatus.order_index
           (filter (fun s => (ProjectStatus.project_id s =? projectId)
                             && ProjectStatus.is_active s)
                   (project_statuses d)))) ;;
       ret (res_json (JStatuses updatedStatuses))
     end)
    (fun message => res_status 400 (JMessage message)).

(* ------------------------------------------------------------------ *)
(** ** Requests served one after the other *)

Inductive Request :=
| Create (user : option User) (body : TaskBody)
| Move (now id status_id position : Z)
| Delete (user : User) (taskId : Z).

Definition serve (r : Request) : World -> Response * World :=
  match r with
  | Create user body => POST_tasks user body
  | Move now id status_id position => PUT_tasks_id_status now id status_id position
  | Delete user taskId => DELETE_tasks_id user taskId
  end.

Fixpoint serve_all (rs : list Request) (w : World) : World :=
  match rs with
  | [] => w
  | r :: rest => serve_all rest (snd (serve r w))
  end.

(* ------------------------------------------------------------------ *)
(** ** Lanes, positions and density *)

Definition lane_positions (rows : list Task.t) (lane : Z) : list Z :=
  map Task.position (filter (in_lane (Some lane)) rows).

Definition lane_size (rows : list Task.t) (lane : Z) : Z :=
  Z.of_nat (List.length (lane_positions rows lane)).

(** The positions of the lane are exactly 0, 1, ..., n-1, each once. *)
Definition dense (rows : list Task.t) (lane : Z) : Prop :=
  NoDup (lane_positions rows lane)
  /\ forall p, In p (lane_positions rows lane) <-> 0 <= p < lane_size rows lane.

Definition Zrange (n : nat) : list Z := map Z.of_nat (seq 0 n).

Definition denseb (rows : list Task.t) (lane : Z) : bool :=
  let ps := lane_positions rows lane in
  forallb (fun k => existsb (Z.eqb k) ps) (Zrange (List.length ps)).

Definition all_denseb (rows : list Task.t) : bool :=
  forallb (fun r => match Task.status_id r with
                    | Some lane => denseb rows lane
                    | None => true
                    end) rows.

(* ------------------------------------------------------------------ *)
(** ** The net effect of a reorder on one lane *)

Fixpoint reorder_row (projectId : Z) (statusIds : list Z) (index : Z)
         (s : ProjectStatus.t) : ProjectStatus.t :=
  match statusIds with
  | [] => s
  | statusId :: rest =>
      reorder_row projectId rest (index + 1)
        (if (ProjectStatus.id s =? statusId)
            && (ProjectStatus.project_id s =? projectId)
         then ProjectStatus.set_order_index index s else s)
  end.

(** The batch of a reorder as the list of its UPDATEs, identifier and
    index, and the effect on one lane of issuing them in a given order. *)
Fixpoint indexed (statusIds : list Z) (index : Z) : list (Z * Z) :=
  match statusIds with
  | [] => []
  | statusId :: rest => (statusId, index) :: indexed rest (index + 1)
  end.

Definition reorder_update (projectId : Z) (u : Z * Z) (s : ProjectStatus.t)
  : ProjectStatus.t :=
  if (ProjectStatus.id s =? fst u) && (ProjectStatus.project_id s =? projectId)
  then ProjectStatus.set_order_index (snd u) s else s.

Definition apply_updates (projectId : Z) (us : list (Z * Z))
           (s : ProjectStatus.t) : ProjectStatus.t :=
  fold_left (fun s u => reorder_update projectId u s) us s.

(* ------------------------------------------------------------------ *)
(** ** The order index as the specification words it *)

(** The order index the specification words promise to a new lane: the
    maximum over the project's active lanes plus 1, or 0 without any. *)
Definition max_active_order_plus_1 (projectId : Z)
           (lanes : list ProjectStatus.t) : Z :=
  match top_by ProjectStatus.order_index
               (filter ProjectStatus.is_active (lanes_of projectId lanes)) with
  | Some m => ProjectStatus.order_index m + 1
  | None => 0
  end.

(* ------------------------------------------------------------------ *)
(** ** A board used in the scenarios *)

Definition a_task (id : Z) (lane : Z) (position : Z) : Task.t :=
  Task.mk id "task" None (Some lane) position Task.medium 1 None 1 None None.

Definition a_lane (id : Z) (key : string) (order : Z) (active : bool)
  : ProjectStatus.t :=
  ProjectStatus.mk id 1 key key "#6b7280" order true active.

(** Lane 10 ("todo") holds tasks 1..4 at positions 0..3, lane 11
    ("in-progress") holds tasks 5 and 6, lane 12 ("completed") is empty. *)
Definition board : DB :=
  {| tasks := [ a_task 1 10 0; a_task 2 10 1; a_task 3 10 2; a_task 4 10 3;
                a_task 5 11 0; a_task 6 11 1 ];
     tasks_auto_increment := 7;
     project_statuses := [ a_lane 10 "todo" 0 true;
                           a_lane 11 "in-progress" 1 true;
                           a_lane 12 "completed" 2 true ];
     project_statuses_auto_increment := 13 |}.

Definition positions_by_id (w : World) : list (Z * option Z * Z) :=
  map (fun r => (Task.id r, Task.status_id r, Task.position r))
      (tasks (db w)).

Definition order_by_id (w : World) : list (Z * Z) :=
  map (fun s => (ProjectStatus.id s, ProjectStatus.order_index s))
      (project_statuses (db w)).

(** The board with a retired lane 13 whose order index is 5. *)
Definition board_with_retired_lane : DB :=
  {| tasks := tasks board;
     tasks_auto_increment := tasks_auto_increment board;
     project_statuses := project_statuses board ++ [a_lane 13 "archive" 5 false];
     project_statuses_auto_increment := 14 |}.

Definition review_lane : StatusBody :=
  {| sb_title := "In Review"; sb_color := None; sb_project_id := 1;
     sb_status_key := None |}.

Definition a_new_task : TaskBody :=
  {| b_title := "Write the report"; b_description := None; b_priority := None;
     b_project_id := 1; b_assigned_to := None; b_due_date := None |}.

(** The creator of the tasks of the board. *)
Definition the_creator : User := {| user_id := 1; role := "user" |}.

(** A session on the board: a creation, a move within lane 10, a move of
    task 2 to the head of lane 11, and the deletion of task 1 by its
    creator. *)
Definition a_session : list Request :=
  [ Create None a_new_task; Move 0 2 10 3; Move 0 2 11 0; Delete the_creator 1 ].

(* ------------------------------------------------------------------ *)
(** ** PUT /api/statuses/:id and DELETE /api/statuses/:id *)

Definition ProjectStatus_set_title (x : string) (s : ProjectStatus.t)
  : ProjectStatus.t :=
  ProjectStatus.mk (ProjectStatus.id s) (ProjectStatus.project_id s)
    (ProjectStatus.status_key s) x (ProjectStatus.color s)
    (ProjectStatus.order_index s) (ProjectStatus.is_default s)
    (ProjectStatus.is_active s).

Definition ProjectStatus_set_color (x : string) (s : ProjectStatus.t)
  : ProjectStatus.t :=
  ProjectStatus.mk (ProjectStatus.id s) (ProjectStatus.project_id s)
    (ProjectStatus.status_key s) (ProjectStatus.title s) x
    (ProjectStatus.order_index s) (ProjectStatus.is_default s)
    (ProjectStatus.is_active s).

Definition ProjectStatus_set_is_active (x : bool) (s : ProjectStatus.t)
  : ProjectStatus.t :=
  ProjectStatus.mk (ProjectStatus.id s) (ProjectStatus.project_id s)
    (ProjectStatus.status_key s) (ProjectStatus.title s) (ProjectStatus.color s)
    (ProjectStatus.order_index s) (ProjectStatus.is_default s) x.

(** The values object handed to the instance method [status.update]. *)
Record StatusValues := {
  sv_title : option string;
  sv_color : option string;
  sv_is_active : option bool
}.

(** [instance.set(values)] on a lane. *)
Definition status_set (v : StatusValues) (s : ProjectStatus.t)
  : ProjectStatus.t :=
  let s1 := match sv_title v with
            | Some x => ProjectStatus_set_title x s | None => s end in
  let s2 := match sv_color v with
            | Some x => ProjectStatus_set_color x s1 | None => s1 end in
  match sv_is_active v with
  | Some x => ProjectStatus_set_is_active x s2 | None => s2 end.

Definition status_changed (prev inst : ProjectStatus.t) : bool :=
  negb (String.eqb (ProjectStatus.title inst) (ProjectStatus.title prev))
  || negb (String.eqb (ProjectStatus.color inst) (ProjectStatus.color prev))
  || negb (Bool.eqb (ProjectStatus.is_active inst) (ProjectStatus.is_active prev)).

(** The UPDATE issued by [save]: the fields named in [values], copied
    from the instance. *)
Definition status_write (v : StatusValues) (inst row : ProjectStatus.t)
  : ProjectStatus.t :=
  let r1 := match sv_title v with
            | Some _ => ProjectStatus_set_title (ProjectStatus.title inst) row
            | None => row end in
  let r2 := match sv_color v with
            | Some _ => ProjectStatus_set_color (ProjectStatus.color inst) r1
            | None => r1 end in
  match sv_is_active v with
  | Some _ => ProjectStatus_set_is_active (ProjectStatus.is_active inst) r2
  | None => r2 end.

(** The instance method [status.update(values)]; nothing is written when
    no field has changed.  The widths of the columns (100 characters for
    the title, 7 for the colour) are the storage's affair and are not
    modelled: the properties below take values that fit. *)
Definition status_update (status : ProjectStatus.t) (v : StatusValues)
  : Async ProjectStatus.t :=
  await (fun d =>
    let inst := status_set v status in
    if status_changed status inst
    then (Resolved inst,
          with_project_statuses
            (map (fun r => if ProjectStatus.id r =? ProjectStatus.id status
                           then status_write v inst r else r)
                 (project_statuses d)) d)
    else (Resolved inst, d)).

Definition ProjectStatus_findByPk (pk : Z) : Async (option ProjectStatus.t) :=
  ProjectStatus_findOne (fun s => ProjectStatus.id s =? pk).

(** [Task.count({ where: { status_id: status.id } })] *)
Definition Task_count (status_id : Z) : Async Z :=
  await (read (fun d =>
    Z.of_nat (List.length (filter (in_lane (Some status_id)) (tasks d))))).

Definition PUT_statuses_id (id : Z) (title color : option string)
  : World -> Response * World :=
  try_catch
    (status <- ProjectStatus_findByPk id ;;
     match status with
     | None => ret (res_status 404 (JMessage "Status not found"))
     | Some status =>
       status <- status_update status
                   {| sv_title := Some (or_string title (ProjectStatus.title status));
                      sv_color := Some (or_string color (ProjectStatus.color status));
                      sv_is_active := None |} ;;
       ret (res_json (JStatus status))
     end)
    (fun message => res_status 400 (JMessage message)).

Definition DELETE_statuses_id (id : Z) : World -> Response * World :=
  try_catch
    (status <- ProjectStatus_findByPk id ;;
     match status with
     | None => ret (res_status 404 (JMessage "Status not found"))
     | Some status =>
       taskCount <- Task_count (ProjectStatus.id status) ;;
       if taskCount >? 0 then
         ret (res_status 400 (JMessage
           "Cannot delete status with existing tasks. Please move tasks first."))
       else if ProjectStatus.is_default status then
         ret (res_status 400 (JMessage "Cannot delete default status."))
       else
         status_update status
           {| sv_title := None; sv_color := None; sv_is_active := Some false |} ;;;
         ret (res_json (JMessage "Status deleted successfully"))
     end)
    (fun message => res_status 500 (JMessage message)).

(* ------------------------------------------------------------------ *)
(** ** Requests on the lanes and on the whole board *)

Inductive LaneRequest :=
| CreateLane (body : StatusBody)
| RenameLane (id : Z) (title color : option string)
| RetireLane (id : Z)
| ReorderLanes (projectId : Z) (statusIds : option (list Z)).

Definition serve_lane (r : LaneRequest) : World -> Response * World :=
  match r with
  | CreateLane body => POST_statuses body
  | RenameLane id title color => PUT_statuses_id id title color
  | RetireLane id => DELETE_statuses_id id
  | ReorderLanes projectId statusIds => PUT_statuses_reorder projectId statusIds
  end.

Definition serve_any (r : Request + LaneRequest) : World -> Response * World :=
  match r with
  | inl r => serve r
  | inr r => serve_lane r
  end.

Fixpoint serve_all_any (rs : list (Request + LaneRequest)) (w : World) : World :=
  match rs with
  | [] => w
  | r :: rest => serve_all_any rest (snd (serve_any r w))
  end.

(* ------------------------------------------------------------------ *)
(** ** Hoare triples for awaited calls

    [triple P c Q]: from a world whose store satisfies [P], whatever the
    schedule of faults, [c] ends with an outcome and a store related by
    [Q]. *)

Definition triple {A} (P : DB -> Prop) (c : Async A)
           (Q : Outcome A -> DB -> Prop) : Prop :=
  forall w, P (db w) -> Q (fst (c w)) (db (snd (c w))).

(** What a handler, a function from worlds to a response and a world,
    guarantees from every world whose store satisfies [P]. *)
Definition handler_triple (P : DB -> Prop) (h : World -> Response * World)
           (Q : Response -> DB -> Prop) : Prop :=
  forall w, P (db w) -> Q (fst (h w)) (db (snd (h w))).

(** An invariant of the store alone: kept by a computation whatever its
    outcome. *)
Definition keeps {A} (I : DB -> Prop) (c : Async A) : Prop :=
  triple I c (fun _ d => I d).

(* ------------------------------------------------------------------ *)
(** ** Frames and invariants of the handlers *)

(** Two rows that differ at most in the ledger columns [status_id],
    [position] and [completedAt]. *)
Definition same_card (r r' : Task.t) : Prop :=
  Task.id r' = Task.id r /\ Task.title r' = Task.title r
  /\ Task.description r' = Task.description r
  /\ Task.priority r' = Task.priority r
  /\ Task.projectId r' = Task.projectId r
  /\ Task.assignedTo r' = Task.assignedTo r
  /\ Task.createdBy r' = Task.createdBy r
  /\ Task.dueDate r' = Task.dueDate r.

(** Two lanes that differ at most in [order_index]. *)
Definition same_lane_but_order (s s' : ProjectStatus.t) : Prop :=
  s' = ProjectStatus.set_order_index (ProjectStatus.order_index s') s.

(** The order indexes of the lanes of a project. *)
Definition lane_orders (projectId : Z) (lanes : list ProjectStatus.t) : list Z :=
  map ProjectStatus.order_index (lanes_of projectId lanes).

(** No active lane carries the identifier [lane]. *)
Definition no_active_lane (lane : Z) (lanes : list ProjectStatus.t) : Prop :=
  forall s, In s lanes -> ProjectStatus.id s = lane ->
            ProjectStatus.is_active s = false.

(** What a move may rewrite: the ledger columns of the tasks, nothing
    else in the store. *)
Definition move_frame (d0 d : DB) : Prop :=
  project_statuses d = project_statuses d0
  /\ tasks_auto_increment d = tasks_auto_increment d0
  /\ project_statuses_auto_increment d = project_statuses_auto_increment d0
  /\ Forall2 same_card (tasks d0) (tasks d).

(** What a reorder may rewrite: the order indexes of the lanes. *)
Definition reorder_frame (d0 d : DB) : Prop :=
  tasks d = tasks d0
  /\ tasks_auto_increment d = tasks_auto_increment d0
  /\ project_statuses_auto_increment d = project_statuses_auto_increment d0
  /\ Forall2 same_lane_but_order (project_statuses d0) (project_statuses d).

(** The board of the scenarios with a further lane 14, not a default one,
    that holds task 7. *)
Definition board_with_custom_lane : DB :=
  {| tasks := tasks board ++ [a_task 7 14 0];
     tasks_auto_increment := 8;
     project_statuses :=
       project_statuses board
       ++ [ProjectStatus.mk 14 1 "in-review" "In Review" "#6b7280" 3 false true];
     project_statuses_auto_increment := 15 |}.

(** The board with a further lane 14, not a default one, that holds no
    task. *)
Definition board_with_spare_lane : DB :=
  {| tasks := tasks board;
     tasks_auto_increment := tasks_auto_increment board;
     project_statuses :=
       project_statuses board
       ++ [ProjectStatus.mk 14 1 "in-review" "In Review" "#6b7280" 3 false true];
     project_statuses_auto_increment := 15 |}.

(** The primary key of the lanes and its auto-increment counter. *)
Definition lanes_primary_key_ok (d : DB) : Prop :=
  NoDup (map ProjectStatus.id (project_statuses d))
  /\ Forall (fun s => ProjectStatus.id s < project_statuses_auto_increment d)
            (project_statuses d).

(** A closed lane: an identifier the counter has passed, that no active
    lane carries and no task references. *)
Definition closed_lane (lane : Z) (d : DB) : Prop :=
  no_active_lane lane (project_statuses d)
  /\ lane_size (tasks d) lane = 0
  /\ lane < project_statuses_auto_increment d.

(** The same, with the emptiness of the lane said row by row. *)
Definition closed_rows (lane : Z) (d : DB) : Prop :=
  no_active_lane lane (project_statuses d)
  /\ Forall (fun r => Task.status_id r <> Some lane) (tasks d)
  /\ lane < project_statuses_auto_increment d.

(** What a move may do to a task other than the moved one: shift it by
    one position at most, and nothing else. *)
Definition nudged (r r' : Task.t) : Prop :=
  r' = Task.set_position (Task.position r') r
  /\ Z.abs (Task.position r' - Task.position r) <= 1.

(* ------------------------------------------------------------------ *)
(** * Properties *)

Lemma option_Z_eqb_spec a b : reflect (a = b) (option_Z_eqb a b).
Proof.
  destruct a as [x|], b as [y|]; simpl; try (constructor; congruence).
  destruct (Z.eqb_spec x y); constructor; congruence.
Qed.

Lemma findByPk_id rows pk task :
  Task.findByPk rows pk = Some task -> Task.id task = pk /\ In task rows.
Proof.
  unfold Task.findByPk. intros H. apply find_some in H.
  destruct H as [Hin Heq]. apply Z.eqb_eq in Heq. now split.
Qed.

Lemma Forall2_map_fun {A} (R : A -> A -> Prop) (f : A -> A) l :
  (forall x, In x l -> R x (f x)) -> Forall2 R l (map f l).
Proof.
  induction l as [|x l IH]; simpl; intros H; constructor.
  - apply H. now left.
  - apply IH. intros y Hy. apply H. now right.
Qed.

Lemma in_lane_true lane r : in_lane lane r = true <-> Task.status_id r = lane.
Proof. unfold in_lane. destruct (option_Z_eqb_spec (Task.status_id r) lane); split; congruence. Qed.

Lemma find_none_of {A} (f : A -> bool) l :
  (forall x, In x l -> f x = false) -> find f l = None.
Proof.
  induction l as [|x l IH]; simpl; intros H; [reflexivity |].
  rewrite (H x) by now left. apply IH. intros y Hy. apply H. now right.
Qed.

(* ------------------------------------------------------------------ *)
(** ** What the handlers read and write of a task *)

(** The handlers read [task.project_id]; the attribute is [projectId]. *)
Lemma project_id_is_undefined task : Task.project_id task = None.
Proof. reflexivity. Qed.

(** [status] is not an attribute, so no [set] marks it as changed. *)
Lemma status_is_never_changed prev inst : Task.changed "status" prev inst = false.
Proof. reflexivity. Qed.

Lemma run_beforeUpdate_id now prev inst : Task.run_beforeUpdate now prev inst = inst.
Proof. reflexivity. Qed.

Lemma set_keeps_completedAt v task :
  Task.completedAt (Task.set v task) = Task.completedAt task.
Proof.
  unfold Task.set. destruct (Task.v_status_id v), (Task.v_position v); reflexivity.
Qed.

Lemma write_completedAt v inst row :
  Task.completedAt (Task.write v inst inst row) = Task.completedAt row.
Proof.
  unfold Task.write.
  destruct (option_Z_eqb_spec (Task.completedAt inst) (Task.completedAt inst));
    [| congruence].
  destruct (Task.v_status_id v), (Task.v_position v); reflexivity.
Qed.

(* ------------------------------------------------------------------ *)
(** ** Moves *)

(** *** Running the move handler on a store without pending faults *)

Lemma move_not_found_run now d id status_id position :
  Task.findByPk (tasks d) id = None ->
  PUT_tasks_id_status now id status_id position (calm d)
  = (res_status 404 (JMessage "Task not found"), calm d).
Proof.
  intros Hfind.
  unfold PUT_tasks_id_status, try_catch, bind, Task_findByPk, await, read. simpl.
  rewrite Hfind. reflexivity.
Qed.

Lemma move_refused_run now d id status_id position task :
  Task.findByPk (tasks d) id = Some task ->
  PUT_tasks_id_status now id status_id position (calm d)
  = (res_status 400 (JMessage (invalid_undefined "project_id")), calm d).
Proof.
  intros Hfind.
  unfold PUT_tasks_id_status, try_catch, bind, Task_findByPk, await, read. simpl.
  rewrite Hfind. reflexivity.
Qed.

(** In every world the move handler answers before its first UPDATE. *)
Lemma move_keeps_db now id status_id position w :
  db (snd (PUT_tasks_id_status now id status_id position w)) = db w.
Proof.
  destruct w as [d fs].
  unfold PUT_tasks_id_status, try_catch, bind, Task_findByPk, await, read. simpl.
  destruct fs as [|[|] fs]; simpl; try reflexivity;
    destruct (Task.findByPk (tasks d) id); reflexivity.
Qed.

(** C1 — every run of PUT /api/tasks/:id/status is atomic: whatever call
    the storage layer rejects, every row of the store (the positions of
    the lanes and the moved task's own row) is left exactly as it was
    before the call, so no run leaves a partial shift.  The handler
    answers 404 for an unknown task, and for an existing one it is
    stopped at the lane lookup, whose where clause is built from
    [task.project_id]; the answer is then 400 and no UPDATE has been
    issued. *)
Theorem move_leaves_every_row_as_it_was now id status_id position w :
  let (res, w') := PUT_tasks_id_status now id status_id position w in
  db w' = db w /\ (code res = 404 \/ code res = 400).
Proof.
  destruct w as [d fs].
  unfold PUT_tasks_id_status, try_catch, bind, Task_findByPk, await, read. simpl.
  destruct fs as [|[|] fs]; simpl.
  - destruct (Task.findByPk (tasks d) id); simpl; auto.
  - auto.
  - destruct (Task.findByPk (tasks d) id); simpl; auto.
Qed.

(** C3 — a move within a lane shifts nothing.  On the board, lane 10
    holds tasks 1, 2, 3, 4 at positions 0, 1, 2, 3; the move of task 2
    (position 1) to position 3, and to any other position of lane 10, is
    answered 400 with the error of the lane lookup, and the positions
    stay 0, 1, 2, 3 where the shifts would give 0, 3, 1, 2. *)
Theorem same_lane_move_is_refused :
  (forall now position,
      exists m, PUT_tasks_id_status now 2 10 position (calm board)
                = (res_status 400 (JMessage m), calm board))
  /\ positions_by_id (snd (PUT_tasks_id_status 0 2 10 3 (calm board)))
     = [ (1, Some 10, 0); (2, Some 10, 1); (3, Some 10, 2); (4, Some 10, 3);
         (5, Some 11, 0); (6, Some 11, 1) ]
  /\ positions_by_id (snd (PUT_tasks_id_status 0 2 10 3 (calm board)))
     <> [ (1, Some 10, 0); (2, Some 10, 3); (3, Some 10, 1); (4, Some 10, 2);
          (5, Some 11, 0); (6, Some 11, 1) ].
Proof.
  assert (Hrun : forall now position,
             PUT_tasks_id_status now 2 10 position (calm board)
             = (res_status 400 (JMessage (invalid_undefined "project_id")),
                calm board)).
  { intros now position. apply (move_refused_run _ _ _ _ _ (a_task 2 10 1)).
    reflexivity. }
  split; [intros now position; eexists; apply Hrun |]. rewrite Hrun. simpl.
  split; [reflexivity | discriminate].
Qed.

(** C4 — a move to another lane moves nothing.  On the board, the move
    of task 2 from lane 10 to any position of lane 11 is answered 400
    with the error of the lane lookup: task 2 stays in lane 10 at
    position 1, lane 10 is not compacted and lane 11 opens no slot.
    Behind the lookup, the value under [status] would go nowhere: [set]
    keeps the lane and the position only; and for a lane whose key is a
    member of [Object.prototype], such as 'constructor', the mapping
    gives that member, not 'todo'. *)
Theorem cross_lane_move_is_refused :
  (forall now position,
      exists m, PUT_tasks_id_status now 2 11 position (calm board)
                = (res_status 400 (JMessage m), calm board))
  /\ positions_by_id (snd (PUT_tasks_id_status 0 2 11 0 (calm board)))
     = [ (1, Some 10, 0); (2, Some 10, 1); (3, Some 10, 2); (4, Some 10, 3);
         (5, Some 11, 0); (6, Some 11, 1) ]
  /\ (forall status_id position newStatus task,
         Task.set (values_move status_id position newStatus) task
         = Task.set_position position (Task.set_status_id (Some status_id) task))
  /\ enumStatus (a_lane 15 "constructor" 3 true) = Inherited "constructor"
  /\ enumStatus (a_lane 15 "in-review" 3 true) = Own todo.
Proof.
  assert (Hrun : forall now position,
             PUT_tasks_id_status now 2 11 position (calm board)
             = (res_status 400 (JMessage (invalid_undefined "project_id")),
                calm board)).
  { intros now position. apply (move_refused_run _ _ _ _ _ (a_task 2 10 1)).
    reflexivity. }
  split; [intros now position; eexists; apply Hrun |]. rewrite Hrun. simpl.
  repeat split; reflexivity.
Qed.

(** C9 — a move of a task to the lane and position it already has writes
    nothing, but it does not return the task: on the board, the move of
    task 2 to lane 10, position 1, is answered 400 with the error of the
    lane lookup. *)
Theorem move_to_current_place_is_refused :
  (forall now,
      exists m, PUT_tasks_id_status now 2 10 1 (calm board)
                = (res_status 400 (JMessage m), calm board))
  /\ fst (PUT_tasks_id_status 0 2 10 1 (calm board))
     <> res_json (JTask (Some (a_task 2 10 1))).
Proof.
  assert (Hrun : forall now,
             PUT_tasks_id_status now 2 10 1 (calm board)
             = (res_status 400 (JMessage (invalid_undefined "project_id")),
                calm board)).
  { intros now. apply (move_refused_run _ _ _ _ _ (a_task 2 10 1)). reflexivity. }
  split; [intros now; eexists; apply Hrun |]. rewrite Hrun. simpl. discriminate.
Qed.

(* ------------------------------------------------------------------ *)
(** ** The completion timestamp *)

Lemma update_instance_completedAt now task v rows :
  Task.completedAt (fst (Task.update_instance now task v rows))
  = Task.completedAt task
  /\ Forall2 (fun r r' => Task.completedAt r' = Task.completedAt r)
             rows (snd (Task.update_instance now task v rows)).
Proof.
  unfold Task.update_instance. rewrite run_beforeUpdate_id.
  destruct (Task.changed_any task (Task.set v task)); simpl.
  - split; [apply set_keeps_completedAt |].
    apply Forall2_map_fun. intros r _.
    destruct (Task.id r =? Task.id task); [apply write_completedAt | reflexivity].
  - split; [apply set_keeps_completedAt |].
    induction rows; constructor; auto.
Qed.

(** C10 — the [beforeUpdate] hook, given an instance whose [status] has
    changed, stamps [completedAt] with the current time when the status
    is 'completed' and was not, and clears it when the status is not
    'completed'.  But no instance update changes the status: [status] is
    not an attribute of the model, [task.changed('status')] is false in
    every update, and [task.update] leaves [completedAt] as it was, on
    the instance and in every row.  On the board, the update that the
    move of task 2 into the 'completed' lane 12 issues leaves
    [completedAt] null, and the move itself is answered 400. *)
Theorem completedAt_is_never_stamped :
  (forall now previous task,
      Task.beforeUpdate now true (Some (Own completed)) previous task
      = if is_completed previous then task
        else Task.set_completedAt (Some now) task)
  /\ (forall now previous task,
         Task.beforeUpdate now true (Some (Own todo)) previous task
         = Task.set_completedAt None task
         /\ Task.beforeUpdate now true (Some (Own in_progress)) previous task
            = Task.set_completedAt None task)
  /\ (forall prev inst, Task.changed "status" prev inst = false)
  /\ (forall now task v rows,
         Task.completedAt (fst (Task.update_instance now task v rows))
         = Task.completedAt task
         /\ Forall2 (fun r r' => Task.completedAt r' = Task.completedAt r)
                    rows (snd (Task.update_instance now task v rows)))
  /\ Task.update_instance 5 (a_task 2 10 1)
       (values_move 12 0 (a_lane 12 "completed" 2 true)) (tasks board)
     = (Task.mk 2 "task" None (Some 12) 0 Task.medium 1 None 1 None None,
        [ a_task 1 10 0;
          Task.mk 2 "task" None (Some 12) 0 Task.medium 1 None 1 None None;
          a_task 3 10 2; a_task 4 10 3; a_task 5 11 0; a_task 6 11 1 ])
  /\ (exists m, PUT_tasks_id_status 5 2 12 0 (calm board)
                 = (res_status 400 (JMessage m), calm board)).
Proof.
  split; [| split; [| split; [| split; [| split]]]].
  - intros now previous task. unfold Task.beforeUpdate. simpl.
    destruct (is_completed previous); reflexivity.
  - intros now previous task. split; reflexivity.
  - apply status_is_never_changed.
  - apply update_instance_completedAt.
  - reflexivity.
  - eexists. apply (move_refused_run _ _ _ _ _ (a_task 2 10 1)). reflexivity.
Qed.

(* ------------------------------------------------------------------ *)
(** ** Deletion *)

(** C5 — hard deletion only destroys the row.  On the board, the creator
    deletes task 1 (lane 10, position 0): the tasks behind it keep their
    positions 1, 2, 3, so the lane is left with a gap at 0. *)
Theorem delete_leaves_positions_behind :
  let (res, w') := DELETE_tasks_id {| user_id := 1; role := "user" |} 1
                     (calm board) in
  res = res_json (JMessage "Task deleted successfully")
  /\ positions_by_id w'
     = [ (2, Some 10, 1); (3, Some 10, 2); (4, Some 10, 3);
         (5, Some 11, 0); (6, Some 11, 1) ]
  /\ ~ dense (tasks (db w')) 10.
Proof.
  remember (DELETE_tasks_id {| user_id := 1; role := "user" |} 1 (calm board))
    as out eqn:E.
  vm_compute in E. subst out.
  split; [reflexivity | split; [reflexivity |]].
  intros [_ Hin]. specialize (Hin 0). vm_compute in Hin.
  destruct Hin as [_ Hin].
  destruct Hin as [E | [E | [E | []]]]; try discriminate.
  split; congruence.
Qed.

(** In every world, DELETE /api/tasks/:id removes at most the rows with
    the given primary key and rewrites no other row: the rows that stay
    keep their positions. *)
Lemma DELETE_tasks_id_only_removes user taskId w :
  let rows' := tasks (db (snd (DELETE_tasks_id user taskId w))) in
  rows' = tasks (db w)
  \/ rows' = filter (fun r => negb (Task.id r =? taskId)) (tasks (db w)).
Proof.
  destruct w as [d fs].
  unfold DELETE_tasks_id, try_catch, bind, Task_findByPk, task_destroy,
    write_tasks, await, read, ret.
  cbn.
  destruct fs as [|[|] fs]; cbn; auto;
    destruct (Task.findByPk (tasks d) taskId) as [task|] eqn:Hfind; cbn; auto;
    destruct (findByPk_id _ _ _ Hfind) as [Hid _];
    destruct (negb (role user =? "admin")%string
              && negb (Task.createdBy task =? user_id user)); cbn; auto.
  - right. unfold Task.destroy. now rewrite Hid.
  - destruct fs as [|[|] fs]; cbn; auto; right; unfold Task.destroy;
      now rewrite Hid.
Qed.

(* ------------------------------------------------------------------ *)
(** ** Creation *)

Lemma build_is_never_valid pk o : Task.validated pk (Task_build o) = None.
Proof. reflexivity. Qed.

(** In every world POST /api/tasks inserts nothing: the draft that
    [build] makes of the handler's object has neither [projectId] nor
    [createdBy]. *)
Lemma create_keeps_db user body w : db (snd (POST_tasks user body w)) = db w.
Proof.
  destruct w as [d fs].
  unfold POST_tasks, try_catch, bind, ProjectStatus_findOne, Task_findOne_last,
    Task_create, Task_findByPk, throw, await, read, ret.
  cbn.
  destruct fs as [|[|] fs]; cbn; auto;
    destruct (ProjectStatus.findOne _ _) as [lane |]; cbn; auto;
    try (destruct fs as [|[|] fs]; cbn; auto);
    try (destruct fs as [|[|] fs]; cbn; auto).
Qed.

(** C8 — a task is not created at the tail of its lane: it is not
    created.  On the board, whose lane 10 holds four tasks at positions
    0, 1, 2, 3, POST /api/tasks for project 1 is answered 400 by the
    validation of the model, for any user, and lane 10 still holds
    positions 0, 1, 2, 3, with no task at position 4: the handler hands
    [project_id] and [created_by] to [Task.create], the attributes are
    [projectId] and [createdBy], and both may not be null. *)
Theorem created_task_is_refused :
  (forall user,
      exists m, POST_tasks user a_new_task (calm board)
                = (res_status 400 (JMessage m), calm board))
  /\ lane_positions (tasks (db (snd (POST_tasks None a_new_task (calm board))))) 10
     = [0; 1; 2; 3]
  /\ (forall o, Task.d_projectId (Task_build o) = None
                /\ Task.d_createdBy (Task_build o) = None).
Proof.
  assert (Hrun : forall user,
             POST_tasks user a_new_task (calm board)
             = (res_status 400 (JMessage "Validation error"), calm board)).
  { intros user. reflexivity. }
  split; [intros user; eexists; apply Hrun |]. rewrite Hrun.
  split; [reflexivity |]. intros o. split; reflexivity.
Qed.

Lemma top_by_None {A} (key : A -> Z) rows : top_by key rows = None <-> rows = [].
Proof.
  destruct rows as [|r rows]; simpl; [tauto |].
  split; [| discriminate].
  destruct (top_by key rows) as [m|]; [destruct (key r <? key m) |]; discriminate.
Qed.

Lemma top_by_Some {A} (key : A -> Z) rows m :
  top_by key rows = Some m ->
  In m rows /\ forall r, In r rows -> key r <= key m.
Proof.
  revert m. induction rows as [|r rows IH]; simpl; intros m H; [discriminate |].
  destruct (top_by key rows) as [m'|] eqn:E.
  - destruct (IH m' eq_refl) as [Hin Hmax].
    destruct (Z.ltb_spec (key r) (key m')) as [Hlt|Hge];
      injection H as <-.
    + split; [now right |].
      intros x [Hx | Hx]; [subst x; lia | now apply Hmax].
    + split; [now left |].
      intros x [Hx | Hx]; [subst x; lia |].
      specialize (Hmax x Hx). lia.
  - apply top_by_None in E. subst rows. injection H as <-.
    split; [now left |]. intros x [Hx | []]. subst x. lia.
Qed.

(* ------------------------------------------------------------------ *)
(** ** Lanes: creation and reorder *)

(** C7 (as the code has it) — a lane created by POST /api/statuses gets
    the maximum order index over all lanes of the project, retired ones
    included, plus 1, or 0 when the project has no lane at all; the new
    row is appended to the table. *)
Theorem new_lane_order_index d body :
  sb_title body <> "" ->
  sb_project_id body <> 0 ->
  let key := or_string (sb_status_key body) (generate_key (sb_title body)) in
  key_taken (sb_project_id body) key (project_statuses d) = false ->
  let existing := lanes_of (sb_project_id body) (project_statuses d) in
  exists created,
    POST_statuses body (calm d)
    = (res_status 201 (JStatus created),
       calm {| tasks := tasks d;
               tasks_auto_increment := tasks_auto_increment d;
               project_statuses := project_statuses d ++ [created];
               project_statuses_auto_increment :=
                 project_statuses_auto_increment d + 1 |})
    /\ ProjectStatus.project_id created = sb_project_id body
    /\ ProjectStatus.status_key created = key
    /\ (existing = [] -> ProjectStatus.order_index created = 0)
    /\ (existing <> [] ->
        exists last, In last existing
                     /\ (forall s, In s existing ->
                                   ProjectStatus.order_index s
                                   <= ProjectStatus.order_index last)
                     /\ ProjectStatus.order_index created
                        = ProjectStatus.order_index last + 1).
Proof.
  intros Htitle Hpid key Hfree existing.
  unfold POST_statuses, try_catch.
  destruct (String.eqb_spec (sb_title body) ""); [contradiction |].
  destruct (Z.eqb_spec (sb_project_id body) 0); [contradiction |].
  unfold bind, ProjectStatus_create, await, read. simpl.
  fold key. rewrite Hfree.
  eexists. split; [reflexivity |]. simpl.
  split; [reflexivity |]. split; [reflexivity |].
  fold existing.
  destruct (top_by ProjectStatus.order_index existing) as [last|] eqn:E.
  - destruct (top_by_Some _ _ _ E) as [Hin Hmax]. split.
    + intros Hnil. rewrite Hnil in Hin. destruct Hin.
    + intros _. exists last. repeat split; auto.
  - apply top_by_None in E. split; [reflexivity | congruence].
Qed.

Lemma new_lane_order_index_witness :
  exists created,
    fst (POST_statuses review_lane (calm board_with_retired_lane))
    = res_status 201 (JStatus created)
    /\ ProjectStatus.status_key created = "in-review"
    /\ ProjectStatus.project_id created = 1.
Proof.
  destruct (@new_lane_order_index board_with_retired_lane review_lane)
    as (created & Hrun & Hpid & Hkey & _).
  - discriminate.
  - discriminate.
  - reflexivity.
  - exists created. rewrite Hrun. repeat split; assumption.
Defined.

(** C7 as stated fails: with active lanes at order 0, 1, 2 and a retired
    lane at order 5, the new lane gets 6, while the maximum over the active
    lanes plus 1 is 3. *)
Lemma new_lane_counts_retired_lanes :
  exists created,
    fst (POST_statuses review_lane (calm board_with_retired_lane))
    = res_status 201 (JStatus created)
    /\ ProjectStatus.order_index created = 6
    /\ max_active_order_plus_1 1 (project_statuses board_with_retired_lane) = 3
    /\ ProjectStatus.order_index created
       <> max_active_order_plus_1 1 (project_statuses board_with_retired_lane).
Proof.
  eexists. split; [reflexivity |]. repeat split. discriminate.
Qed.

Lemma Promise_all_updates_calm projectId statusIds index d :
  Promise_all_updates projectId statusIds index (calm d)
  = (Resolved tt,
     calm (with_project_statuses
             (map (reorder_row projectId statusIds index) (project_statuses d))
             d)).
Proof.
  revert index d. induction statusIds as [|statusId rest IH]; intros index d.
  - simpl. rewrite map_id. destruct d; reflexivity.
  - simpl. unfold await. simpl.
    change {| db := with_project_statuses
                      (ProjectStatus.update (ProjectStatus.set_order_index index)
                         (fun s => (ProjectStatus.id s =? statusId)
                                   && (ProjectStatus.project_id s =? projectId))
                         (project_statuses d)) d;
              faults := [] |}
      with (calm (with_project_statuses
                    (ProjectStatus.update (ProjectStatus.set_order_index index)
                       (fun s => (ProjectStatus.id s =? statusId)
                                 && (ProjectStatus.project_id s =? projectId))
                       (project_statuses d)) d)).
    rewrite IH. simpl. unfold ProjectStatus.update. rewrite map_map.
    reflexivity.
Qed.

Lemma reorder_row_foreign projectId statusIds index s :
  ProjectStatus.project_id s <> projectId \/ ~ In (ProjectStatus.id s) statusIds ->
  reorder_row projectId statusIds index s = s.
Proof.
  revert index. induction statusIds as [|x rest IH]; intros index H; simpl;
    [reflexivity |].
  destruct (Z.eqb_spec (ProjectStatus.id s) x) as [E|E];
    destruct (Z.eqb_spec (ProjectStatus.project_id s) projectId) as [P|P]; simpl.
  - exfalso. destruct H as [H|H]; [contradiction | apply H; now left].
  - apply IH. now left.
  - apply IH. destruct H as [H|H]; [now left | right].
    intros Hin. apply H. now right.
  - apply IH. now left.
Qed.

Lemma reorder_row_listed projectId statusIds index s i :
  NoDup statusIds ->
  ProjectStatus.project_id s = projectId ->
  nth_error statusIds i = Some (ProjectStatus.id s) ->
  reorder_row projectId statusIds index s
  = ProjectStatus.set_order_index (index + Z.of_nat i) s.
Proof.
  revert index i s. induction statusIds as [|x rest IH];
    intros index i s Hnd Hp Hi.
  - destruct i; discriminate.
  - inversion Hnd as [| ? ? Hx Hrest]; subst. simpl.
    destruct i as [|i]; simpl in Hi.
    + injection Hi as ->. rewrite !Z.eqb_refl. simpl.
      rewrite reorder_row_foreign by (right; exact Hx).
      now rewrite Z.add_0_r.
    + destruct (Z.eqb_spec (ProjectStatus.id s) x) as [E|E]; simpl.
      * exfalso. apply Hx. rewrite <- E. eapply nth_error_In. exact Hi.
      * rewrite (IH (index + 1) i s Hrest eq_refl Hi). f_equal. lia.
Qed.

(** *** The order in which the UPDATEs of a reorder land does not matter *)

Lemma reorder_row_indexed projectId statusIds index s :
  reorder_row projectId statusIds index s
  = apply_updates projectId (indexed statusIds index) s.
Proof.
  revert index s. induction statusIds as [|x rest IH]; intros index s; simpl.
  - reflexivity.
  - rewrite IH. reflexivity.
Qed.

Lemma indexed_ids statusIds index : map fst (indexed statusIds index) = statusIds.
Proof.
  revert index. induction statusIds as [|x rest IH]; intros index; simpl.
  - reflexivity.
  - now rewrite IH.
Qed.

Lemma reorder_update_commute projectId u1 u2 s :
  fst u1 <> fst u2 ->
  reorder_update projectId u1 (reorder_update projectId u2 s)
  = reorder_update projectId u2 (reorder_update projectId u1 s).
Proof.
  intros Hne. unfold reorder_update.
  destruct (Z.eqb_spec (ProjectStatus.id s) (fst u1)) as [E1|E1];
    destruct (Z.eqb_spec (ProjectStatus.id s) (fst u2)) as [E2|E2];
    destruct (ProjectStatus.project_id s =? projectId) eqn:P; simpl;
    rewrite ?P; simpl;
    repeat match goal with
           | |- context [?a =? ?b] => destruct (Z.eqb_spec a b); simpl
           end; try reflexivity; congruence.
Qed.

Lemma apply_updates_permutation projectId us us' :
  Permutation us us' -> NoDup (map fst us) ->
  forall s, apply_updates projectId us s = apply_updates projectId us' s.
Proof.
  unfold apply_updates.
  induction 1 as [| u l l' Hperm IH | u1 u2 l | l l' l'' H1 IH1 H2 IH2];
    intros Hnd s; simpl.
  - reflexivity.
  - apply IH. now inversion Hnd.
  - rewrite reorder_update_commute; [reflexivity |].
    inversion Hnd as [| ? ? Hnotin _]; subst. intros E. apply Hnotin.
    left. now symmetry.
  - rewrite IH1 by assumption. apply IH2.
    eapply Permutation_NoDup; [| exact Hnd]. now apply Permutation_map.
Qed.

(** Whatever the order in which the storage layer executes the UPDATEs of
    a reorder without repeated identifiers, each lane ends as in the
    order of the list. *)
Lemma reorder_order_irrelevant projectId statusIds us :
  NoDup statusIds ->
  Permutation (indexed statusIds 0) us ->
  forall s, apply_updates projectId us s = reorder_row projectId statusIds 0 s.
Proof.
  intros Hnd Hperm s. rewrite reorder_row_indexed. symmetry.
  apply apply_updates_permutation; [exact Hperm |].
  now rewrite indexed_ids.
Qed.

(** C6 (as the code has it) — for a list without repeated identifiers,
    served without a rejected call: every lane of the project whose
    identifier is in the list gets its index in the list as order index,
    every other row is left as it was (identifiers that are not lanes of
    the project change nothing), and the answer is 200 with the project's
    active lanes by order index.  On the board, reorder([12, 10, 11])
    gives 12 -> 0, 10 -> 1, 11 -> 2. *)
Theorem reorder_assigns_indices :
  (forall d projectId statusIds,
      NoDup statusIds ->
      exists lanes',
        PUT_statuses_reorder projectId (Some statusIds) (calm d)
        = (res_json (JStatuses
                       (sort_by ProjectStatus.order_index
                          (filter (fun s =>
                                     (ProjectStatus.project_id s =? projectId)
                                     && ProjectStatus.is_active s) lanes'))),
           calm (with_project_statuses lanes' d))
        /\ Forall2 (fun s s' =>
             (ProjectStatus.project_id s = projectId ->
              forall i, nth_error statusIds i = Some (ProjectStatus.id s) ->
                        s' = ProjectStatus.set_order_index (Z.of_nat i) s)
             /\ (ProjectStatus.project_id s <> projectId
                 \/ ~ In (ProjectStatus.id s) statusIds -> s' = s))
             (project_statuses d) lanes')
  /\ order_by_id (snd (PUT_statuses_reorder 1 (Some [12; 10; 11]) (calm board)))
     = [ (10, 1); (11, 2); (12, 0) ].
Proof.
  split; [| reflexivity].
  intros d projectId statusIds Hnd.
  exists (map (reorder_row projectId statusIds 0) (project_statuses d)).
  split.
  - unfold PUT_statuses_reorder, try_catch, bind.
    rewrite Promise_all_updates_calm. reflexivity.
  - apply Forall2_map_fun. intros s _. split.
    + intros Hp i Hi.
      now rewrite (@reorder_row_listed projectId statusIds 0 s i Hnd Hp Hi).
    + apply reorder_row_foreign.
Qed.

Lemma reorder_assigns_indices_witness :
  exists lanes',
    snd (PUT_statuses_reorder 1 (Some [12; 10; 11]) (calm board))
    = calm (with_project_statuses lanes' board).
Proof.
  destruct (proj1 reorder_assigns_indices board 1 [12; 10; 11])
    as (lanes' & Hrun & _).
  - repeat constructor; simpl; intuition discriminate.
  - exists lanes'. now rewrite Hrun.
Defined.

(** C6 as stated fails twice.  The UPDATEs are not one atomic batch: when
    the second one is rejected the answer is 400, yet lanes 12 and 11 have
    their new order index while lane 10 keeps its old one.  And a repeated
    identifier ends with the index of a later occurrence: reorder([10, 11,
    10]) leaves lane 10 at 2, not at 0. *)
Lemma reorder_is_not_atomic_and_repeats_overwrite :
  (let (res, w') := PUT_statuses_reorder 1 (Some [12; 10; 11])
                      {| db := board; faults := [false; true] |} in
   res = res_status 400 (JMessage "storage error")
   /\ order_by_id w' = [ (10, 0); (11, 2); (12, 0) ]
   /\ project_statuses (db w') <> project_statuses board)
  /\ order_by_id (snd (PUT_statuses_reorder 1 (Some [10; 11; 10]) (calm board)))
     = [ (10, 2); (11, 1); (12, 2) ].
Proof.
  split; [| reflexivity].
  remember (PUT_statuses_reorder 1 (Some [12; 10; 11])
              {| db := board; faults := [false; true] |}) as out eqn:E.
  vm_compute in E. subst out.
  split; [reflexivity | split; [reflexivity | discriminate]].
Qed.

(* ------------------------------------------------------------------ *)
(** ** Density *)

Lemma Zrange_In n p : In p (Zrange n) <-> 0 <= p < Z.of_nat n.
Proof.
  unfold Zrange. rewrite in_map_iff. split.
  - intros (i & <- & Hi). apply in_seq in Hi. lia.
  - intros Hp. exists (Z.to_nat p). split; [lia |]. apply in_seq. lia.
Qed.

Lemma Zrange_NoDup n : NoDup (Zrange n).
Proof.
  unfold Zrange. generalize 0%nat.
  induction n as [|n IH]; intros start; simpl; constructor.
  - rewrite in_map_iff. intros (i & Hi & Hin). apply in_seq in Hin. lia.
  - apply IH.
Qed.

Lemma Zrange_length n : List.length (Zrange n) = n.
Proof. unfold Zrange. now rewrite length_map, length_seq. Qed.

(** Pigeonhole: a list of n integers that contains 0, ..., n-1 contains
    each of them once and nothing else. *)
Lemma covering_is_dense (ps : list Z) :
  (forall k, 0 <= k < Z.of_nat (List.length ps) -> In k ps) ->
  NoDup ps /\ forall p, In p ps <-> 0 <= p < Z.of_nat (List.length ps).
Proof.
  intros Hcover.
  assert (Hperm : Permutation (Zrange (List.length ps)) ps).
  { apply NoDup_Permutation_bis.
    - apply Zrange_NoDup.
    - now rewrite Zrange_length.
    - intros k Hk. apply Hcover. now apply Zrange_In. }
  split.
  - eapply Permutation_NoDup; [exact Hperm | apply Zrange_NoDup].
  - intros p. rewrite <- Zrange_In. split; intros H.
    + eapply Permutation_in; [symmetry; exact Hperm | exact H].
    + eapply Permutation_in; [exact Hperm | exact H].
Qed.

Lemma lane_positions_In rows lane k :
  In k (lane_positions rows lane)
  <-> exists r, In r rows /\ Task.status_id r = Some lane /\ Task.position r = k.
Proof.
  unfold lane_positions. rewrite in_map_iff. split.
  - intros (r & Hk & Hr). apply filter_In in Hr. destruct Hr as [Hin Hl].
    apply in_lane_true in Hl. eauto.
  - intros (r & Hin & Hl & Hk). exists r. split; [exact Hk |].
    apply filter_In. split; [exact Hin | now apply in_lane_true].
Qed.

Lemma dense_of_rows rows lane :
  (forall k, 0 <= k < lane_size rows lane ->
             exists r, In r rows /\ Task.status_id r = Some lane
                       /\ Task.position r = k) ->
  dense rows lane.
Proof.
  intros H. apply covering_is_dense. intros k Hk.
  apply lane_positions_In. now apply H.
Qed.

Lemma denseb_dense rows lane : denseb rows lane = true -> dense rows lane.
Proof.
  unfold denseb. intros H. apply covering_is_dense. intros k Hk.
  rewrite forallb_forall in H. specialize (H k (proj2 (Zrange_In _ _) Hk)).
  apply existsb_exists in H. destruct H as (p & Hp & E).
  apply Z.eqb_eq in E. now subst.
Qed.

Lemma all_denseb_dense rows : all_denseb rows = true -> forall lane, dense rows lane.
Proof.
  unfold all_denseb. intros H lane.
  destruct (lane_positions rows lane) as [|p ps] eqn:E.
  - apply dense_of_rows. unfold lane_size. rewrite E. simpl. lia.
  - assert (Hp : In p (lane_positions rows lane)) by (rewrite E; now left).
    apply lane_positions_In in Hp. destruct Hp as (r & Hin & Hl & _).
    rewrite forallb_forall in H. specialize (H r Hin). rewrite Hl in H.
    now apply denseb_dense.
Qed.


(** Requests other than deletions leave the store as it was, in every
    world. *)
Lemma serve_keeps_db_but_for_deletion r w :
  match r with Delete _ _ => True | _ => db (snd (serve r w)) = db w end.
Proof.
  destruct r as [user body | now id status_id position | user taskId]; simpl.
  - apply create_keeps_db.
  - apply move_keeps_db.
  - exact I.
Qed.

(** C2 — density does not survive a deletion.  The lanes of the board are
    dense.  After the session of a creation, two moves and the deletion
    of task 1 by its creator, each served without a rejected call, lane
    10 holds tasks 2, 3, 4 at positions 1, 2, 3: three tasks, and none at
    position 0.  The creation and the moves are refused and change
    nothing; the deletion removes the row and shifts nothing (the defect
    of C5). *)
Theorem density_lost_by_deletion :
  (forall lane, dense (tasks board) lane)
  /\ positions_by_id (serve_all a_session (calm board))
     = [ (2, Some 10, 1); (3, Some 10, 2); (4, Some 10, 3);
         (5, Some 11, 0); (6, Some 11, 1) ]
  /\ lane_size (tasks (db (serve_all a_session (calm board)))) 10 = 3
  /\ ~ In 0 (lane_positions (tasks (db (serve_all a_session (calm board)))) 10)
  /\ ~ dense (tasks (db (serve_all a_session (calm board)))) 10.
Proof.
  split; [apply all_denseb_dense; reflexivity |].
  assert (E : serve_all a_session (calm board)
              = calm (with_tasks [ a_task 2 10 1; a_task 3 10 2; a_task 4 10 3;
                                   a_task 5 11 0; a_task 6 11 1 ] board)).
  { reflexivity. }
  rewrite E. clear E.
  split; [reflexivity |]. split; [reflexivity |].
  assert (Hno : ~ In 0 (lane_positions
                          (tasks (db (calm (with_tasks
                             [ a_task 2 10 1; a_task 3 10 2; a_task 4 10 3;
                               a_task 5 11 0; a_task 6 11 1 ] board)))) 10)).
  { simpl. intros [E | [E | [E | []]]]; discriminate. }
  split; [exact Hno |].
  intros [_ Hin]. apply Hno. apply Hin. vm_compute. split; congruence.
Qed.

(* ------------------------------------------------------------------ *)
(** ** Reasoning about handlers in every world *)

Lemma triple_ret {A} (P : DB -> Prop) (a : A) (Q : Outcome A -> DB -> Prop) :
  (forall d, P d -> Q (Resolved a) d) -> triple P (ret a) Q.
Proof. intros H w Hw. now apply H. Qed.

Lemma triple_throw {A} (P : DB -> Prop) (m : string)
      (Q : Outcome A -> DB -> Prop) :
  (forall d, P d -> Q (Rejected m) d) -> triple P (throw m) Q.
Proof. intros H w Hw. now apply H. Qed.

Lemma triple_bind {A B} (P : DB -> Prop) (c : Async A) (k : A -> Async B)
      (Q1 : Outcome A -> DB -> Prop) (Q2 : Outcome B -> DB -> Prop) :
  triple P c Q1 ->
  (forall a, triple (Q1 (Resolved a)) (k a) Q2) ->
  (forall m d, Q1 (Rejected m) d -> Q2 (Rejected m) d) ->
  triple P (bind c k) Q2.
Proof.
  intros Hc Hk Hrej w Hw. unfold bind.
  specialize (Hc w Hw). destruct (c w) as [[a | m] w1]; simpl in *.
  - now apply Hk.
  - now apply Hrej.
Qed.

Lemma triple_await {A} (P : DB -> Prop) (q : DB -> Outcome A * DB)
      (Q : Outcome A -> DB -> Prop) :
  (forall d, P d -> Q (fst (q d)) (snd (q d))) ->
  (forall d, P d -> Q (Rejected "storage error") d) ->
  triple P (await q) Q.
Proof.
  intros Hq Hrej [d fs] Hw. unfold await. simpl in *.
  destruct fs as [|[|] fs]; simpl.
  - specialize (Hq d Hw). destruct (q d); exact Hq.
  - now apply Hrej.
  - specialize (Hq d Hw). destruct (q d); exact Hq.
Qed.

Lemma triple_weaken {A} (P P' : DB -> Prop) (c : Async A)
      (Q Q' : Outcome A -> DB -> Prop) :
  triple P' c Q' ->
  (forall d, P d -> P' d) -> (forall o d, Q' o d -> Q o d) ->
  triple P c Q.
Proof. intros Hc HP HQ w Hw. apply HQ, Hc, HP, Hw. Qed.

Lemma handler_try_catch (P : DB -> Prop) (body : Async Response)
      (handler : string -> Response) (Q : Response -> DB -> Prop) :
  triple P body (fun o d => match o with
                            | Resolved r => Q r d
                            | Rejected m => Q (handler m) d
                            end) ->
  handler_triple P (try_catch body handler) Q.
Proof.
  intros Hb w Hw. unfold try_catch. specialize (Hb w Hw).
  destruct (body w) as [[r | m] w1]; exact Hb.
Qed.

Lemma keeps_ret {A} (I : DB -> Prop) (a : A) : keeps I (ret a).
Proof. apply triple_ret. auto. Qed.

Lemma keeps_throw {A} (I : DB -> Prop) m : keeps I (@throw A m).
Proof. apply triple_throw. auto. Qed.

Lemma keeps_bind {A B} (I : DB -> Prop) (c : Async A) (k : A -> Async B) :
  keeps I c -> (forall a, keeps I (k a)) -> keeps I (bind c k).
Proof. intros Hc Hk. eapply triple_bind; eauto. Qed.

Lemma keeps_await {A} (I : DB -> Prop) (q : DB -> Outcome A * DB) :
  (forall d, I d -> I (snd (q d))) -> keeps I (await q).
Proof. intros H. apply triple_await; auto. Qed.

Lemma keeps_read {A} (I : DB -> Prop) (f : DB -> A) : keeps I (await (read f)).
Proof. apply keeps_await. auto. Qed.

Lemma keeps_handler (I : DB -> Prop) (body : Async Response) handler :
  keeps I body -> handler_triple I (try_catch body handler) (fun _ d => I d).
Proof.
  intros H. apply handler_try_catch.
  eapply triple_weaken; [exact H | auto |]. intros [r | m] d; auto.
Qed.

(** *** What a move never touches *)

Lemma same_card_refl r : same_card r r.
Proof. repeat split. Qed.

Lemma Forall2_refl_of {A} (R : A -> A -> Prop) l :
  (forall x, R x x) -> Forall2 R l l.
Proof. intros H. induction l; constructor; auto. Qed.

Lemma Forall2_map_after {A} (R : A -> A -> Prop) (f : A -> A) l0 l :
  (forall x y, R x y -> R x (f y)) ->
  Forall2 R l0 l -> Forall2 R l0 (map f l).
Proof. intros Hf H. induction H; simpl; constructor; auto. Qed.

Lemma move_frame_refl d : move_frame d d.
Proof.
  repeat split. apply Forall2_refl_of. apply same_card_refl.
Qed.

(** X1 — whatever the request and whatever calls the storage layer
    rejects, PUT /api/tasks/:id/status rewrites at most the ledger columns
    (lane, position, completion time) of the tasks: no task row is added,
    removed or re-keyed, every other column of every task is as before,
    and the lanes are untouched. *)
Theorem move_rewrites_only_the_ledger now id status_id position w :
  move_frame (db w) (db (snd (PUT_tasks_id_status now id status_id position w))).
Proof.
  destruct w as [d fs].
  unfold PUT_tasks_id_status, try_catch, bind, Task_findByPk, await, read. simpl.
  destruct fs as [|[|] fs]; simpl;
    try destruct (Task.findByPk (tasks d) id); simpl; apply move_frame_refl.
Qed.

Lemma NoDup_map_eq {A B} (f : A -> B) l x y :
  NoDup (map f l) -> In x l -> In y l -> f x = f y -> x = y.
Proof.
  induction l as [|a l IH]; simpl; intros Hnd Hx Hy E; [contradiction |].
  inversion Hnd as [| ? ? Ha Hrest]; subst.
  destruct Hx as [<- | Hx], Hy as [<- | Hy]; auto.
  - exfalso. apply Ha. rewrite E. now apply in_map.
  - exfalso. apply Ha. rewrite <- E. now apply in_map.
Qed.


(** *** Refused moves *)

(** X2 — served without a rejected call, a move of a task that does not
    exist answers 404 'Task not found', and a move of a task that exists
    answers 400 with the message of the error that the lane lookup
    throws, whatever the lane and the position asked for; in both cases
    the store is left as it was. *)
Theorem move_refuses_unknown_and_known_tasks now d id status_id position :
  match Task.findByPk (tasks d) id with
  | None =>
      PUT_tasks_id_status now id status_id position (calm d)
      = (res_status 404 (JMessage "Task not found"), calm d)
  | Some _ =>
      exists m,
        PUT_tasks_id_status now id status_id position (calm d)
        = (res_status 400 (JMessage m), calm d)
  end.
Proof.
  destruct (Task.findByPk (tasks d) id) as [task |] eqn:Hfind.
  - exists (invalid_undefined "project_id").
    now apply (move_refused_run _ _ _ _ _ task).
  - now apply move_not_found_run.
Qed.

(** *** What a reorder never touches, and what it answers *)

Lemma triple_Promise_all_updates (I : DB -> Prop) projectId statusIds index :
  (forall d statusId i,
      I d ->
      I (with_project_statuses
           (ProjectStatus.update (ProjectStatus.set_order_index i)
              (fun s => (ProjectStatus.id s =? statusId)
                        && (ProjectStatus.project_id s =? projectId))
              (project_statuses d)) d)) ->
  keeps I (Promise_all_updates projectId statusIds index).
Proof.
  intros Hstep. revert index.
  induction statusIds as [|statusId rest IH]; intros index w Hw; simpl.
  - exact Hw.
  - pose proof (keeps_await I
                  (fun d => (Resolved tt,
                     with_project_statuses
                       (ProjectStatus.update (ProjectStatus.set_order_index index)
                          (fun s => (ProjectStatus.id s =? statusId)
                                    && (ProjectStatus.project_id s =? projectId))
                          (project_statuses d)) d))
                  (fun d Hd => Hstep d statusId index Hd) w Hw) as H1.
    destruct (await _ w) as [o1 w1]. simpl in H1.
    specialize (IH (index + 1) w1 H1).
    destruct (Promise_all_updates projectId rest (index + 1) w1) as [o2 w2].
    exact IH.
Qed.

Lemma same_lane_but_order_refl s : same_lane_but_order s s.
Proof. destruct s; reflexivity. Qed.

Lemma same_lane_but_order_set s0 s i :
  same_lane_but_order s0 s ->
  same_lane_but_order s0 (ProjectStatus.set_order_index i s).
Proof.
  unfold same_lane_but_order. intros H. rewrite H. reflexivity.
Qed.

Lemma reorder_frame_refl d : reorder_frame d d.
Proof.
  repeat split. apply Forall2_refl_of. apply same_lane_but_order_refl.
Qed.

(** X5 — whatever the list and whatever calls the storage layer rejects,
    PUT /api/statuses/reorder/:projectId rewrites nothing but order
    indexes: no lane is added or removed, every lane keeps its
    identifier, project, key, title, colour and flags, and the tasks are
    untouched. *)
Theorem reorder_rewrites_only_order_indexes projectId statusIds w :
  reorder_frame (db w) (db (snd (PUT_statuses_reorder projectId statusIds w))).
Proof.
  apply (keeps_handler (reorder_frame (db w))); [| apply reorder_frame_refl].
  destruct statusIds as [statusIds |]; [| apply keeps_ret].
  apply keeps_bind.
  - apply triple_Promise_all_updates.
    intros d statusId i (H1 & H2 & H3 & H4). repeat split; auto. simpl.
    unfold ProjectStatus.update. apply Forall2_map_after; [| exact H4].
    intros s0 s Hs. destruct (_ && _); [now apply same_lane_but_order_set | exact Hs].
  - intros _. apply keeps_bind; [apply keeps_read |]. intros; apply keeps_ret.
Qed.

Lemma insert_by_perm {A} (key : A -> Z) x l :
  Permutation (insert_by key x l) (x :: l).
Proof.
  induction l as [|a l IH]; simpl; [reflexivity |].
  destruct (key x <=? key a); [reflexivity |].
  rewrite IH. apply perm_swap.
Qed.

Lemma sort_by_perm {A} (key : A -> Z) l : Permutation (sort_by key l) l.
Proof.
  induction l as [|a l IH]; simpl; [reflexivity |].
  rewrite insert_by_perm. now constructor.
Qed.

Lemma insert_by_sorted {A} (key : A -> Z) x l :
  StronglySorted (fun a b => key a <= key b) l ->
  StronglySorted (fun a b => key a <= key b) (insert_by key x l).
Proof.
  induction 1 as [| a l Hs IH Hall]; simpl.
  - constructor; constructor.
  - destruct (Z.leb_spec (key x) (key a)).
    + constructor; [constructor; assumption |].
      constructor; [assumption |].
      eapply Forall_impl; [| exact Hall]. simpl. intros; lia.
    + constructor; [exact IH |].
      eapply Permutation_Forall; [symmetry; apply insert_by_perm |].
      constructor; [lia | exact Hall].
Qed.

Lemma sort_by_sorted {A} (key : A -> Z) l :
  StronglySorted (fun a b => key a <= key b) (sort_by key l).
Proof.
  induction l as [|a l IH]; simpl; [constructor |].
  now apply insert_by_sorted.
Qed.

(** X6 — whenever the reorder answers 200, whatever the storage layer has
    rejected on the way, the answer lists exactly the active lanes of the
    project as they are stored after the call, each once, in ascending
    order index; retired lanes and lanes of other projects are not
    listed. *)
Theorem reorder_answer_is_sorted_active_lanes projectId statusIds w :
  let res := fst (PUT_statuses_reorder projectId statusIds w) in
  let lanes' := project_statuses (db (snd (PUT_statuses_reorder projectId statusIds w))) in
  code res = 200 ->
  exists listed,
    json res = JStatuses listed
    /\ StronglySorted (fun a b => ProjectStatus.order_index a
                                  <= ProjectStatus.order_index b) listed
    /\ Permutation listed
         (filter (fun s => (ProjectStatus.project_id s =? projectId)
                           && ProjectStatus.is_active s) lanes').
Proof.
  cbv zeta.
  apply (handler_try_catch (fun _ => True)
           _ _ (fun res d =>
                  code res = 200 ->
                  exists listed,
                    json res = JStatuses listed
                    /\ StronglySorted (fun a b => ProjectStatus.order_index a
                                                  <= ProjectStatus.order_index b)
                                      listed
                    /\ Permutation listed
                         (filter (fun s => (ProjectStatus.project_id s =? projectId)
                                           && ProjectStatus.is_active s)
                                 (project_statuses d))));
    [| exact I].
  destruct statusIds as [statusIds |].
  - eapply triple_bind with (Q1 := fun _ _ => True).
    + apply triple_Promise_all_updates. auto.
    + intros _.
      eapply triple_bind
        with (Q1 := fun o d =>
                      forall l, o = Resolved l ->
                        l = sort_by ProjectStatus.order_index
                              (filter (fun s => (ProjectStatus.project_id s =? projectId)
                                                && ProjectStatus.is_active s)
                                      (project_statuses d))).
      * apply triple_await.
        -- intros d _ l E. simpl in E. now injection E as <-.
        -- intros d _ l E. discriminate.
      * intros l. apply triple_ret. intros d Hl _.
        exists l. split; [reflexivity |].
        rewrite (Hl l eq_refl). split; [apply sort_by_sorted | apply sort_by_perm].
      * intros m d _. simpl. discriminate.
    + intros m d _. simpl. discriminate.
  - apply triple_ret. intros d _. simpl. discriminate.
Qed.

Lemma reorder_answer_is_sorted_active_lanes_witness :
  exists listed,
    json (fst (PUT_statuses_reorder 1 (Some [12; 13; 10; 11])
                 (calm board_with_retired_lane)))
    = JStatuses listed
    /\ map ProjectStatus.id listed = [12; 10; 11].
Proof.
  destruct (reorder_answer_is_sorted_active_lanes 1 (Some [12; 13; 10; 11])
              (calm board_with_retired_lane) eq_refl)
    as (listed & Hjson & _ & _).
  exists listed. split; [exact Hjson |].
  simpl in Hjson. injection Hjson as <-. reflexivity.
Defined.

(** *** A reorder of all the lanes of a project *)

Lemma NoDup_map_inj_in {A B} (f : A -> B) l :
  NoDup l ->
  (forall x y, In x l -> In y l -> f x = f y -> x = y) ->
  NoDup (map f l).
Proof.
  induction 1 as [| a l Ha Hl IH]; simpl; intros Hinj; constructor.
  - rewrite in_map_iff. intros (y & E & Hy).
    assert (y = a) by (apply Hinj; auto). subst y. contradiction.
  - apply IH. intros x y Hx Hy. apply Hinj; auto.
Qed.

Lemma reorder_row_project projectId statusIds index s :
  ProjectStatus.project_id (reorder_row projectId statusIds index s)
  = ProjectStatus.project_id s
  /\ ProjectStatus.id (reorder_row projectId statusIds index s)
     = ProjectStatus.id s.
Proof.
  revert index s. induction statusIds as [|x rest IH]; intros index s; simpl.
  - auto.
  - destruct (IH (index + 1)
                (if (ProjectStatus.id s =? x)
                    && (ProjectStatus.project_id s =? projectId)
                 then ProjectStatus.set_order_index index s else s)) as [H1 H2].
    rewrite H1, H2. destruct (_ && _); auto.
Qed.

Lemma lanes_of_map projectId f lanes :
  (forall s, ProjectStatus.project_id (f s) = ProjectStatus.project_id s) ->
  lanes_of projectId (map f lanes) = map f (lanes_of projectId lanes).
Proof.
  intros Hf. unfold lanes_of. induction lanes as [|s lanes IH]; simpl.
  - reflexivity.
  - rewrite Hf. destruct (ProjectStatus.project_id s =? projectId); simpl;
      now rewrite IH.
Qed.

(** X7 — a reorder, served without a rejected call, whose list has no
    repeated identifier and names every lane of the project gives the
    lanes of the project pairwise distinct order indexes, all within
    0 .. length of the list - 1. *)
Theorem full_reorder_gives_distinct_order_indexes d projectId statusIds :
  NoDup statusIds ->
  NoDup (map ProjectStatus.id (project_statuses d)) ->
  (forall s, In s (project_statuses d) ->
             ProjectStatus.project_id s = projectId ->
             In (ProjectStatus.id s) statusIds) ->
  let lanes' := project_statuses
                  (db (snd (PUT_statuses_reorder projectId (Some statusIds)
                              (calm d)))) in
  NoDup (lane_orders projectId lanes')
  /\ forall s, In s (lanes_of projectId lanes') ->
               0 <= ProjectStatus.order_index s
               < Z.of_nat (List.length statusIds).
Proof.
  intros Hnd Hids Hall lanes'.
  assert (Hlanes : lanes' = map (reorder_row projectId statusIds 0)
                                (project_statuses d)).
  { unfold lanes', PUT_statuses_reorder, try_catch, bind.
    rewrite Promise_all_updates_calm. reflexivity. }
  rewrite Hlanes. unfold lane_orders.
  rewrite lanes_of_map by (intros; apply reorder_row_project).
  assert (Hidx : forall s, In s (lanes_of projectId (project_statuses d)) ->
            exists i, nth_error statusIds i = Some (ProjectStatus.id s)
                      /\ reorder_row projectId statusIds 0 s
                         = ProjectStatus.set_order_index (Z.of_nat i) s).
  { intros s Hs. apply filter_In in Hs. destruct Hs as [Hs Hp].
    apply Z.eqb_eq in Hp.
    destruct (In_nth_error _ _ (Hall s Hs Hp)) as [i Hi].
    exists i. split; [exact Hi |].
    now rewrite (reorder_row_listed projectId statusIds 0 s i Hnd Hp Hi). }
  split.
  - rewrite map_map. apply NoDup_map_inj_in.
    + apply NoDup_filter. eapply NoDup_map_inv. exact Hids.
    + intros s1 s2 H1 H2 E.
      destruct (Hidx s1 H1) as (i1 & Hi1 & E1).
      destruct (Hidx s2 H2) as (i2 & Hi2 & E2).
      rewrite E1, E2 in E. simpl in E.
      assert (i1 = i2) by lia. subst i2.
      apply filter_In in H1, H2.
      apply (NoDup_map_eq ProjectStatus.id (project_statuses d)); try tauto.
      congruence.
  - intros s' Hs'. apply in_map_iff in Hs'. destruct Hs' as (s & <- & Hs).
    destruct (Hidx s Hs) as (i & Hi & E). rewrite E. simpl.
    assert (i < List.length statusIds)%nat
      by (apply nth_error_Some; congruence).
    lia.
Qed.

Lemma full_reorder_gives_distinct_order_indexes_witness :
  NoDup (lane_orders 1
           (project_statuses
              (db (snd (PUT_statuses_reorder 1 (Some [12; 13; 10; 11])
                          (calm board_with_retired_lane)))))).
Proof.
  apply (full_reorder_gives_distinct_order_indexes
           board_with_retired_lane 1 [12; 13; 10; 11]).
  - repeat constructor; simpl; intuition discriminate.
  - repeat constructor; simpl; intuition discriminate.
  - intros s Hs _. simpl in Hs.
    destruct Hs as [<- | [<- | [<- | [<- | []]]]]; simpl; tauto.
Defined.

(** *** Refused lane creations *)

(** X8 — POST /api/statuses refuses, with 400 and the store left as it
    was, a body without title or project (before any call to the store),
    and, whatever the storage layer rejects, a key that a lane of the
    project already carries, a retired lane included. *)
Theorem lane_creation_refusals body w :
  (sb_title body = "" \/ sb_project_id body = 0 ->
   POST_statuses body w
   = (res_status 400 (JMessage "Title and project_id are required"), w))
  /\ (key_taken (sb_project_id body)
                (or_string (sb_status_key body) (generate_key (sb_title body)))
                (project_statuses (db w)) = true ->
      code (fst (POST_statuses body w)) = 400
      /\ db (snd (POST_statuses body w)) = db w).
Proof.
  split.
  - intros H. unfold POST_statuses, try_catch.
    replace ((sb_title body =? "")%string || (sb_project_id body =? 0)) with true.
    + reflexivity.
    + symmetry. apply orb_true_iff.
      destruct H as [H | H]; rewrite H; [left | right]; reflexivity.
  - intros Htaken. destruct w as [d fs]. simpl in Htaken.
    unfold POST_statuses, try_catch, bind, ProjectStatus_create, await, read, ret.
    destruct ((sb_title body =? "")%string || (sb_project_id body =? 0));
      [split; reflexivity |].
    cbn.
    destruct fs as [|[|] fs]; cbn; try (split; reflexivity).
    + rewrite Htaken. split; reflexivity.
    + destruct fs as [|[|] fs]; cbn; try rewrite Htaken; split; reflexivity.
Qed.

Lemma lane_creation_refusals_witness :
  code (fst (POST_statuses
               {| sb_title := "Archive"; sb_color := None; sb_project_id := 1;
                  sb_status_key := None |}
               (calm board_with_retired_lane))) = 400
  /\ POST_statuses
       {| sb_title := ""; sb_color := None; sb_project_id := 1;
          sb_status_key := None |}
       (calm board)
     = (res_status 400 (JMessage "Title and project_id are required"),
        calm board).
Proof.
  split.
  - apply (proj2 (lane_creation_refusals
                    {| sb_title := "Archive"; sb_color := None;
                       sb_project_id := 1; sb_status_key := None |}
                    (calm board_with_retired_lane))).
    reflexivity.
  - apply (proj1 (lane_creation_refusals
                    {| sb_title := ""; sb_color := None; sb_project_id := 1;
                       sb_status_key := None |}
                    (calm board))).
    left. reflexivity.
Defined.

(** *** Generated keys *)

Lemma key_char_is_plain c :
  is_key_char c = true ->
  toLowerCase_ascii c = c /\ is_whitespace c = false.
Proof.
  destruct c as [[] [] [] [] [] [] [] []]; vm_compute; intros H;
    first [discriminate | split; reflexivity].
Qed.

Lemma hyphenate_plain cs :
  Forall (fun c => is_whitespace c = false) cs -> hyphenate false cs = cs.
Proof.
  induction 1 as [| c cs Hc Hcs IH]; simpl; [reflexivity |].
  rewrite Hc. now rewrite IH.
Qed.

Lemma filter_all {A} (f : A -> bool) l :
  Forall (fun x => f x = true) l -> filter f l = l.
Proof.
  induction 1 as [| x l Hx Hl IH]; simpl; [reflexivity |].
  rewrite Hx. now rewrite IH.
Qed.

(** X9 — a key derived from a title holds only lower-case letters,
    digits and hyphens, and deriving a key from such a key gives it back:
    the derivation is idempotent. *)
Theorem generated_key_is_canonical title :
  Forall (fun c => is_key_char c = true)
         (list_ascii_of_string (generate_key title))
  /\ generate_key (generate_key title) = generate_key title.
Proof.
  unfold generate_key at 1 3.
  set (cs := filter is_key_char
               (hyphenate false
                  (map toLowerCase_ascii (list_ascii_of_string title)))).
  assert (Hcs : Forall (fun c => is_key_char c = true) cs).
  { apply Forall_forall. intros c Hc. apply filter_In in Hc. tauto. }
  rewrite list_ascii_of_string_of_list_ascii.
  split; [exact Hcs |].
  unfold generate_key. rewrite list_ascii_of_string_of_list_ascii.
  f_equal.
  assert (Hmap : map toLowerCase_ascii cs = cs).
  { rewrite <- (map_id cs) at 2. apply map_ext_in. intros c Hc.
    rewrite Forall_forall in Hcs. now apply key_char_is_plain, Hcs. }
  rewrite Hmap, hyphenate_plain, filter_all; auto.
  eapply Forall_impl; [| exact Hcs]. intros c Hc. now apply key_char_is_plain.
Qed.

(** *** Renaming and retiring a lane *)

Lemma with_project_statuses_same d :
  with_project_statuses (project_statuses d) d = d.
Proof. destruct d; reflexivity. Qed.

Lemma find_map_first {A} (p : A -> bool) (f : A -> A) l x :
  (forall y, p (f y) = p y) ->
  find p l = Some x -> find p (map f l) = Some (f x).
Proof.
  intros Hp. induction l as [|y l IH]; simpl; [discriminate |].
  rewrite Hp. destruct (p y); [now intros [= ->] | exact IH].
Qed.

Lemma status_write_id v inst row :
  ProjectStatus.id (status_write v inst row) = ProjectStatus.id row.
Proof.
  unfold status_write.
  destruct (sv_title v), (sv_color v), (sv_is_active v); reflexivity.
Qed.

Lemma status_update_calm status v d :
  ProjectStatus.findOne (fun s => ProjectStatus.id s =? ProjectStatus.id status)
                        (project_statuses d) = Some status ->
  exists lanes',
    status_update status v (calm d)
    = (Resolved (status_set v status), calm (with_project_statuses lanes' d))
    /\ ProjectStatus.findOne
         (fun s => ProjectStatus.id s =? ProjectStatus.id status) lanes'
       = Some (status_set v status)
    /\ Forall2 (fun s s' => ProjectStatus.id s <> ProjectStatus.id status -> s' = s)
               (project_statuses d) lanes'.
Proof.
  intros Hfind. unfold ProjectStatus.findOne in *.
  unfold status_update, await. simpl.
  destruct (status_changed status (status_set v status)) eqn:Hch.
  - eexists. split; [reflexivity |]. split.
    + erewrite find_map_first; [| | exact Hfind].
      * rewrite Z.eqb_refl. f_equal. unfold status_write, status_set.
        destruct (sv_title v), (sv_color v), (sv_is_active v); reflexivity.
      * intros y. cbv beta.
        destruct (Z.eqb_spec (ProjectStatus.id y) (ProjectStatus.id status));
          [rewrite status_write_id; now apply Z.eqb_eq | now apply Z.eqb_neq].
    + apply Forall2_map_fun. intros s _ Hne.
      destruct (Z.eqb_spec (ProjectStatus.id s) (ProjectStatus.id status));
        [contradiction | reflexivity].
  - exists (project_statuses d). rewrite with_project_statuses_same.
    split; [reflexivity |]. split.
    + rewrite Hfind. f_equal.
      unfold status_changed in Hch.
      apply orb_false_iff in Hch. destruct Hch as [Hch Ha].
      apply orb_false_iff in Hch. destruct Hch as [Ht Hc].
      apply negb_false_iff in Ht, Hc, Ha.
      apply String.eqb_eq in Ht, Hc. apply Bool.eqb_prop in Ha.
      revert Ht Hc Ha. unfold status_set.
      destruct status as [i p k t c o df ac]; simpl.
      destruct (sv_title v), (sv_color v), (sv_is_active v); simpl;
        intros; subst; reflexivity.
    + apply Forall2_refl_of. auto.
Qed.

Lemma findByPk_lane_id pk lanes status :
  ProjectStatus.findOne (fun s => ProjectStatus.id s =? pk) lanes = Some status ->
  ProjectStatus.id status = pk.
Proof.
  unfold ProjectStatus.findOne. intros H. apply find_some in H.
  now apply Z.eqb_eq.
Qed.

(** X10 — PUT /api/statuses/:id, served without a rejected call and with
    values that fit their columns, is a partial update: a title or colour
    that is absent or empty leaves the field as it was, a non-empty one
    replaces it; the lane keeps its identifier, project, key, order index
    and flags, every other lane and every task is left as it was, and the
    answer carries the updated lane.  An unknown identifier answers 404
    and changes nothing. *)
Theorem rename_is_a_partial_update d id title color :
  (ProjectStatus.findOne (fun s => ProjectStatus.id s =? id) (project_statuses d)
   = None ->
   PUT_statuses_id id title color (calm d)
   = (res_status 404 (JMessage "Status not found"), calm d))
  /\ (forall status,
         ProjectStatus.findOne (fun s => ProjectStatus.id s =? id)
                               (project_statuses d) = Some status ->
         (String.length (or_string title (ProjectStatus.title status)) <= 100)%nat ->
         (String.length (or_string color (ProjectStatus.color status)) <= 7)%nat ->
         exists renamed lanes',
           PUT_statuses_id id title color (calm d)
           = (res_json (JStatus renamed), calm (with_project_statuses lanes' d))
           /\ ProjectStatus.findOne (fun s => ProjectStatus.id s =? id) lanes'
              = Some renamed
           /\ Forall2 (fun s s' => ProjectStatus.id s <> id -> s' = s)
                      (project_statuses d) lanes'
           /\ renamed
              = ProjectStatus_set_color (ProjectStatus.color renamed)
                  (ProjectStatus_set_title (ProjectStatus.title renamed) status)
           /\ (title = None \/ title = Some "" ->
               ProjectStatus.title renamed = ProjectStatus.title status)
           /\ (forall x, title = Some x -> x <> "" ->
                         ProjectStatus.title renamed = x)
           /\ (color = None \/ color = Some "" ->
               ProjectStatus.color renamed = ProjectStatus.color status)
           /\ (forall x, color = Some x -> x <> "" ->
                         ProjectStatus.color renamed = x)).
Proof.
  split.
  - intros Hfind.
    unfold PUT_statuses_id, try_catch, bind, ProjectStatus_findByPk,
      ProjectStatus_findOne, await, read. simpl.
    rewrite Hfind. reflexivity.
  - intros status Hfind _ _.
    pose proof (findByPk_lane_id _ _ _ Hfind) as Hid.
    set (v := {| sv_title := Some (or_string title (ProjectStatus.title status));
                 sv_color := Some (or_string color (ProjectStatus.color status));
                 sv_is_active := None |}).
    destruct (status_update_calm status v d) as (lanes' & Hrun & Hfound & Hothers).
    { now rewrite Hid. }
    rewrite Hid in Hfound, Hothers.
    exists (status_set v status), lanes'.
    split.
    { unfold PUT_statuses_id, try_catch, bind, ProjectStatus_findByPk,
        ProjectStatus_findOne, await, read. simpl.
      rewrite Hfind. simpl. fold v.
      change {| db := d; faults := [] |} with (calm d). rewrite Hrun.
      reflexivity. }
    split; [exact Hfound |]. split; [exact Hothers |].
    split; [reflexivity |].
    unfold v, status_set, or_string. simpl.
    repeat split.
    + intros [-> | ->]; reflexivity.
    + intros x -> Hx. destruct (String.eqb_spec x ""); [contradiction | reflexivity].
    + intros [-> | ->]; reflexivity.
    + intros x -> Hx. destruct (String.eqb_spec x ""); [contradiction | reflexivity].
Qed.

Lemma rename_is_a_partial_update_witness :
  exists renamed lanes',
    PUT_statuses_id 11 (Some "Doing") None (calm board)
    = (res_json (JStatus renamed), calm (with_project_statuses lanes' board))
    /\ ProjectStatus.title renamed = "Doing"
    /\ ProjectStatus.color renamed = "#6b7280".
Proof.
  destruct (proj2 (rename_is_a_partial_update board 11 (Some "Doing") None)
              (a_lane 11 "in-progress" 1 true))
    as (renamed & lanes' & Hrun & _ & _ & _ & _ & Ht & Hc & _);
    [reflexivity | simpl; lia | simpl; lia |].
  exists renamed, lanes'. split; [exact Hrun |]. split.
  - apply (Ht "Doing"); [reflexivity | discriminate].
  - rewrite Hc; [reflexivity | now left].
Defined.

(** X11 — DELETE /api/statuses/:id, served without a rejected call:
    an unknown identifier answers 404; a lane that any task references is
    refused with 400, whether or not it is a default lane; an empty
    default lane is refused with 400; in these cases nothing changes.
    Otherwise the lane is only flagged inactive: its row stays, with its
    order index, and every other lane and every task is left as it was. *)
Theorem retire_is_a_guarded_soft_delete d id :
  (ProjectStatus.findOne (fun s => ProjectStatus.id s =? id) (project_statuses d)
   = None ->
   DELETE_statuses_id id (calm d)
   = (res_status 404 (JMessage "Status not found"), calm d))
  /\ (forall status,
         ProjectStatus.findOne (fun s => ProjectStatus.id s =? id)
                               (project_statuses d) = Some status ->
         (0 < lane_size (tasks d) id ->
          DELETE_statuses_id id (calm d)
          = (res_status 400 (JMessage
               "Cannot delete status with existing tasks. Please move tasks first."),
             calm d))
         /\ (lane_size (tasks d) id = 0 ->
             ProjectStatus.is_default status = true ->
             DELETE_statuses_id id (calm d)
             = (res_status 400 (JMessage "Cannot delete default status."),
                calm d))
         /\ (lane_size (tasks d) id = 0 ->
             ProjectStatus.is_default status = false ->
             exists lanes',
               DELETE_statuses_id id (calm d)
               = (res_json (JMessage "Status deleted successfully"),
                  calm (with_project_statuses lanes' d))
               /\ ProjectStatus.findOne (fun s => ProjectStatus.id s =? id) lanes'
                  = Some (ProjectStatus_set_is_active false status)
               /\ Forall2 (fun s s' => ProjectStatus.id s <> id -> s' = s)
                          (project_statuses d) lanes')).
Proof.
  split.
  - intros Hfind.
    unfold DELETE_statuses_id, try_catch, bind, ProjectStatus_findByPk,
      ProjectStatus_findOne, await, read. simpl.
    rewrite Hfind. reflexivity.
  - intros status Hfind.
    pose proof (findByPk_lane_id _ _ _ Hfind) as Hid.
    assert (Hcount : Z.of_nat (List.length (filter (in_lane (Some id)) (tasks d)))
                     = lane_size (tasks d) id).
    { unfold lane_size, lane_positions. now rewrite length_map. }
    split; [| split].
    + intros Hsome.
      unfold DELETE_statuses_id, try_catch, bind, ProjectStatus_findByPk,
        ProjectStatus_findOne, Task_count, await, read. simpl.
      rewrite Hfind. simpl. rewrite Hid, Hcount.
      destruct (Z.gtb_spec (lane_size (tasks d) id) 0); [reflexivity | lia].
    + intros Hnone Hdef.
      unfold DELETE_statuses_id, try_catch, bind, ProjectStatus_findByPk,
        ProjectStatus_findOne, Task_count, await, read. simpl.
      rewrite Hfind. simpl. rewrite Hid, Hcount, Hnone. simpl.
      rewrite Hdef. reflexivity.
    + intros Hnone Hdef.
      set (v := {| sv_title := None; sv_color := None; sv_is_active := Some false |}).
      destruct (status_update_calm status v d) as (lanes' & Hrun & Hfound & Hothers).
      { now rewrite Hid. }
      rewrite Hid in Hfound, Hothers.
      exists lanes'. split; [| split; [exact Hfound | exact Hothers]].
      unfold DELETE_statuses_id, try_catch, bind, ProjectStatus_findByPk,
        ProjectStatus_findOne, Task_count, await, read. simpl.
      rewrite Hfind. simpl. rewrite Hid, Hcount, Hnone. simpl.
      rewrite Hdef. fold v.
      change {| db := d; faults := [] |} with (calm d). rewrite Hrun.
      reflexivity.
Qed.


Lemma retire_is_a_guarded_soft_delete_witness :
  DELETE_statuses_id 14 (calm board_with_custom_lane)
  = (res_status 400 (JMessage
       "Cannot delete status with existing tasks. Please move tasks first."),
     calm board_with_custom_lane)
  /\ DELETE_statuses_id 12 (calm board)
     = (res_status 400 (JMessage "Cannot delete default status."), calm board)
  /\ exists lanes',
       DELETE_statuses_id 14 (calm board_with_spare_lane)
       = (res_json (JMessage "Status deleted successfully"),
          calm (with_project_statuses lanes' board_with_spare_lane)).
Proof.
  split; [| split].
  - apply (proj1 (proj2 (retire_is_a_guarded_soft_delete board_with_custom_lane 14)
                    (ProjectStatus.mk 14 1 "in-review" "In Review" "#6b7280" 3
                                      false true) eq_refl)).
    reflexivity.
  - apply (proj1 (proj2 (proj2 (retire_is_a_guarded_soft_delete board 12)
                    (a_lane 12 "completed" 2 true) eq_refl)));
      reflexivity.
  - destruct (proj2 (proj2 (proj2 (retire_is_a_guarded_soft_delete
                      board_with_spare_lane 14)
                    (ProjectStatus.mk 14 1 "in-review" "In Review" "#6b7280" 3
                                      false true) eq_refl))
                eq_refl eq_refl) as (lanes' & Hrun & _).
    exists lanes'. exact Hrun.
Defined.

(** *** A retired lane stays closed *)

Lemma lane_size_0_iff rows lane :
  lane_size rows lane = 0
  <-> Forall (fun r => Task.status_id r <> Some lane) rows.
Proof.
  unfold lane_size, lane_positions. rewrite length_map.
  induction rows as [|r rows IH]; simpl.
  - split; [constructor | reflexivity].
  - unfold in_lane at 1.
    destruct (option_Z_eqb_spec (Task.status_id r) (Some lane)) as [E | E].
    + split; [simpl; lia |]. intros H. inversion H; subst. contradiction.
    + rewrite IH. split; [now constructor | intros H; now inversion H].
Qed.

Lemma closed_lane_rows lane d : closed_lane lane d <-> closed_rows lane d.
Proof.
  unfold closed_lane, closed_rows. now rewrite lane_size_0_iff.
Qed.

Lemma closed_rows_with_tasks lane d rows :
  closed_rows lane d ->
  Forall (fun r => Task.status_id r <> Some lane) rows ->
  closed_rows lane (with_tasks rows d).
Proof. intros (H1 & _ & H3) H. repeat split; auto. Qed.

Lemma closed_rows_with_lanes lane d lanes :
  closed_rows lane d ->
  no_active_lane lane lanes ->
  closed_rows lane (with_project_statuses lanes d).
Proof. intros (_ & H2 & H3) H. repeat split; auto. Qed.

Lemma Forall_filter_kept {A} (P : A -> Prop) (f : A -> bool) l :
  Forall P l -> Forall P (filter f l).
Proof.
  intros H. induction H; simpl; [constructor |].
  destruct (f x); [constructor |]; auto.
Qed.

Lemma no_active_lane_map lane (f : ProjectStatus.t -> ProjectStatus.t) lanes :
  (forall s, ProjectStatus.id (f s) = ProjectStatus.id s) ->
  (forall s, ProjectStatus.is_active (f s) = true ->
             ProjectStatus.is_active s = true) ->
  no_active_lane lane lanes -> no_active_lane lane (map f lanes).
Proof.
  intros Hid Hact H s' Hin Hs'. apply in_map_iff in Hin.
  destruct Hin as (s & <- & Hs). rewrite Hid in Hs'.
  specialize (H s Hs Hs').
  destruct (ProjectStatus.is_active (f s)) eqn:E; [| reflexivity].
  apply Hact in E. congruence.
Qed.

Lemma delete_keeps_closed lane user taskId :
  handler_triple (closed_rows lane) (DELETE_tasks_id user taskId)
    (fun _ d => closed_rows lane d).
Proof.
  apply keeps_handler. unfold DELETE_tasks_id.
  apply keeps_bind; [apply keeps_read |]. intros [task |]; [| apply keeps_ret].
  destruct (_ && _); [apply keeps_ret |].
  apply keeps_bind; [| intros; apply keeps_ret].
  apply keeps_await. intros d Hd. simpl.
  apply closed_rows_with_tasks; [exact Hd |].
  apply Forall_filter_kept, Hd.
Qed.

Lemma create_lane_keeps_closed lane body :
  handler_triple (closed_rows lane) (POST_statuses body)
    (fun _ d => closed_rows lane d).
Proof.
  apply keeps_handler. unfold POST_statuses.
  destruct (_ || _); [apply keeps_ret |].
  apply keeps_bind; [apply keeps_read |]. intros lastStatus.
  apply keeps_bind; [| intros; apply keeps_ret].
  apply keeps_await. intros d Hd.
  destruct (key_taken _ _ _); [exact Hd |]. simpl.
  destruct Hd as (H1 & H2 & H3). repeat split; simpl; auto; [| lia].
  intros s Hin Hs. apply in_app_or in Hin.
  destruct Hin as [Hin | [<- | []]]; [now apply H1 |].
  simpl in Hs. lia.
Qed.

Lemma status_write_is_active v status r :
  ProjectStatus.is_active (status_write v (status_set v status) r)
  = match sv_is_active v with
    | Some x => x
    | None => ProjectStatus.is_active r
    end.
Proof.
  unfold status_write, status_set.
  destruct (sv_title v), (sv_color v), (sv_is_active v); reflexivity.
Qed.

Lemma closed_rows_status_update lane status v :
  sv_is_active v <> Some true ->
  keeps (closed_rows lane) (status_update status v).
Proof.
  intros Hv. apply keeps_await. intros d Hd. cbv beta zeta.
  destruct (status_changed status (status_set v status)); simpl; [| exact Hd].
  apply closed_rows_with_lanes; [exact Hd |].
  apply (no_active_lane_map lane
           (fun r => if ProjectStatus.id r =? ProjectStatus.id status
                     then status_write v (status_set v status) r else r));
    [| | apply Hd].
  - intros s. destruct (_ =? _); [apply status_write_id | reflexivity].
  - intros s. destruct (_ =? _); [| auto].
    rewrite status_write_is_active.
    destruct (sv_is_active v) as [[|] |]; [congruence | discriminate | auto].
Qed.

Lemma rename_keeps_closed lane id title color :
  handler_triple (closed_rows lane) (PUT_statuses_id id title color)
    (fun _ d => closed_rows lane d).
Proof.
  apply keeps_handler. unfold PUT_statuses_id.
  apply keeps_bind; [apply keeps_read |]. intros [status |]; [| apply keeps_ret].
  apply keeps_bind; [| intros; apply keeps_ret].
  apply closed_rows_status_update. discriminate.
Qed.

Lemma retire_keeps_closed lane id :
  handler_triple (closed_rows lane) (DELETE_statuses_id id)
    (fun _ d => closed_rows lane d).
Proof.
  apply keeps_handler. unfold DELETE_statuses_id.
  apply keeps_bind; [apply keeps_read |]. intros [status |]; [| apply keeps_ret].
  apply keeps_bind; [apply keeps_read |]. intros taskCount.
  destruct (taskCount >? 0); [apply keeps_ret |].
  destruct (ProjectStatus.is_default status); [apply keeps_ret |].
  apply keeps_bind; [| intros; apply keeps_ret].
  apply closed_rows_status_update. discriminate.
Qed.

Lemma reorder_keeps_closed lane projectId statusIds :
  handler_triple (closed_rows lane) (PUT_statuses_reorder projectId statusIds)
    (fun _ d => closed_rows lane d).
Proof.
  apply keeps_handler. unfold PUT_statuses_reorder.
  destruct statusIds as [statusIds |]; [| apply keeps_ret].
  apply keeps_bind.
  - apply triple_Promise_all_updates. intros d statusId i Hd.
    apply closed_rows_with_lanes; [exact Hd |].
    unfold ProjectStatus.update.
    apply no_active_lane_map; [| | apply Hd];
      intros s; destruct (_ && _); auto.
  - intros _. apply keeps_bind; [apply keeps_read |]. intros; apply keeps_ret.
Qed.

Lemma serve_any_keeps_closed lane r w :
  closed_rows lane (db w) -> closed_rows lane (db (snd (serve_any r w))).
Proof.
  destruct r as [[user body | now id status_id position | user taskId]
                | [body | id title color | id | projectId statusIds]]; simpl.
  - now rewrite create_keeps_db.
  - now rewrite move_keeps_db.
  - apply delete_keeps_closed.
  - apply create_lane_keeps_closed.
  - apply rename_keeps_closed.
  - apply retire_keeps_closed.
  - apply reorder_keeps_closed.
Qed.

Lemma serve_all_any_keeps_closed lane rs w :
  closed_rows lane (db w) -> closed_rows lane (db (serve_all_any rs w)).
Proof.
  revert w. induction rs as [|r rs IH]; intros w Hw; simpl; [exact Hw |].
  apply IH. now apply serve_any_keeps_closed.
Qed.

Lemma retire_closes_lane d id :
  lanes_primary_key_ok d ->
  fst (DELETE_statuses_id id (calm d))
  = res_json (JMessage "Status deleted successfully") ->
  closed_rows id (db (snd (DELETE_statuses_id id (calm d)))).
Proof.
  intros [Hnd Hlt].
  unfold DELETE_statuses_id, try_catch, bind, ProjectStatus_findByPk,
    ProjectStatus_findOne, Task_count, await, read. simpl.
  destruct (ProjectStatus.findOne _ _) as [status |] eqn:Hfind; simpl;
    [| discriminate].
  pose proof (findByPk_lane_id _ _ _ Hfind) as Hid.
  assert (Hin : In status (project_statuses d)).
  { unfold ProjectStatus.findOne in Hfind. now apply find_some in Hfind. }
  destruct (_ >? 0) eqn:Hcount; simpl; [discriminate |].
  destruct (ProjectStatus.is_default status); simpl; [discriminate |].
  intros _.
  set (v := {| sv_title := None; sv_color := None; sv_is_active := Some false |}).
  assert (Hrows : Forall (fun r => Task.status_id r <> Some id) (tasks d)).
  { apply lane_size_0_iff. unfold lane_size, lane_positions.
    rewrite length_map, <- Hid. lia. }
  assert (Hbelow : id < project_statuses_auto_increment d).
  { rewrite <- Hid. rewrite Forall_forall in Hlt. now apply Hlt. }
  unfold status_update, await. simpl.
  destruct (status_changed status (status_set v status)) eqn:Hch; simpl.
  - repeat split; simpl; auto.
    intros s' Hin' Hs'. apply in_map_iff in Hin'.
    destruct Hin' as (s & <- & Hs).
    destruct (Z.eqb_spec (ProjectStatus.id s) (ProjectStatus.id status)) as [E | E].
    + apply status_write_is_active.
    + rewrite Hid in E. contradiction.
  - repeat split; simpl; auto.
    intros s Hs Hsid.
    assert (s = status).
    { clear - Hnd Hs Hin Hsid Hid. revert Hnd Hs Hin.
      induction (project_statuses d) as [|a l IH]; simpl; [tauto |].
      intros Hnd [-> | Hs] [-> | Hin]; auto.
      - inversion Hnd as [| ? ? Hno _]; subst. exfalso. apply Hno.
        apply in_map_iff. exists status. split; [congruence | exact Hin].
      - inversion Hnd as [| ? ? Hno _]; subst. exfalso. apply Hno.
        apply in_map_iff. exists s. split; [congruence | exact Hs].
      - inversion Hnd; subst. auto. }
    subst s.
    unfold status_changed in Hch. apply orb_false_iff in Hch.
    destruct Hch as [_ Ha]. apply negb_false_iff, Bool.eqb_prop in Ha.
    simpl in Ha. congruence.
Qed.

(** X12 — a retired lane stays closed.  A successful DELETE
    /api/statuses/:id (on a table with a sound primary key) leaves the
    lane closed: no active lane carries the identifier and no task
    references it.  A closed lane stays closed under every sequence of
    the requests embedded here (creations, moves and deletions of tasks;
    creations, renamings, retirements and reorders of lanes), whatever
    calls the storage layer rejects: none of these handlers reactivates a
    lane or gives a task a lane. *)
Theorem closed_lane_stays_closed lane :
  (forall d,
      lanes_primary_key_ok d ->
      fst (DELETE_statuses_id lane (calm d))
      = res_json (JMessage "Status deleted successfully") ->
      closed_lane lane (db (snd (DELETE_statuses_id lane (calm d)))))
  /\ (forall rs w,
         closed_lane lane (db w) -> closed_lane lane (db (serve_all_any rs w))).
Proof.
  split.
  - intros d Hkey Hok. apply closed_lane_rows. now apply retire_closes_lane.
  - intros rs w Hw. apply closed_lane_rows, serve_all_any_keeps_closed.
    now apply closed_lane_rows.
Qed.

Lemma closed_lane_stays_closed_witness :
  closed_lane 14 (db (snd (DELETE_statuses_id 14 (calm board_with_spare_lane))))
  /\ lane_size
       (tasks (db (serve_all_any
                     [inl (Move 0 2 13 0); inl (Create None a_new_task);
                      inr (RenameLane 13 (Some "Attic") None);
                      inl (Delete the_creator 1);
                      inr (ReorderLanes 1 (Some [13; 12; 11; 10]))]
                     {| db := board_with_retired_lane;
                        faults := [false; false; true] |}))) 13 = 0.
Proof.
  split.
  - apply (proj1 (closed_lane_stays_closed 14) board_with_spare_lane).
    + split.
      * repeat constructor; simpl; intuition discriminate.
      * repeat constructor.
    + reflexivity.
  - apply (proj2 (closed_lane_stays_closed 13)).
    repeat split.
    intros s Hs Hid. simpl in Hs.
    destruct Hs as [<- | [<- | [<- | [<- | []]]]]; simpl in Hid;
      try discriminate. reflexivity.
Defined.


(** *** Creation and deletion of tasks in every world *)

(** X13 — POST /api/tasks is all or nothing, whatever calls the storage
    layer rejects, and on the model as it is declared it is nothing: for
    every user and body the answer is 400 and the store is left as it
    was.  No row is appended, and no existing row is touched. *)
Theorem task_creation_is_all_or_nothing user body w :
  db (snd (POST_tasks user body w)) = db w
  /\ exists m, fst (POST_tasks user body w) = res_status 400 (JMessage m).
Proof.
  destruct w as [d fs].
  unfold POST_tasks, try_catch, bind, ProjectStatus_findOne, Task_findOne_last,
    Task_create, Task_findByPk, throw, await, read, ret.
  cbn.
  destruct fs as [|[|] fs]; cbn; eauto;
    destruct (ProjectStatus.findOne _ _) as [lane |]; cbn; eauto;
    try (destruct fs as [|[|] fs]; cbn; eauto);
    try (destruct fs as [|[|] fs]; cbn; eauto).
Qed.

(** X14 — DELETE /api/tasks/:id, whatever calls the storage layer
    rejects, removes at most the rows with the given primary key and
    touches nothing else; a user who is neither an admin nor the creator
    of the task removes nothing.  Served without a rejected call, an
    unknown task is answered 404, an unauthorised user 403, and otherwise
    the answer is 200 and the row is gone. *)
Theorem task_deletion_is_guarded user taskId w :
  let d := db w in
  let d' := db (snd (DELETE_tasks_id user taskId w)) in
  let removed :=
    with_tasks (filter (fun r => negb (Task.id r =? taskId)) (tasks d)) d in
  (d' = d \/ d' = removed)
  /\ (forall task,
         Task.findByPk (tasks d) taskId = Some task ->
         role user <> "admin" -> Task.createdBy task <> user_id user ->
         d' = d)
  /\ (faults w = [] ->
      match Task.findByPk (tasks d) taskId with
      | None =>
          fst (DELETE_tasks_id user taskId w)
          = res_status 404 (JError "Task not found") /\ d' = d
      | Some task =>
          (role user <> "admin" /\ Task.createdBy task <> user_id user ->
           fst (DELETE_tasks_id user taskId w)
           = res_status 403 (JError "Access denied") /\ d' = d)
          /\ (role user = "admin" \/ Task.createdBy task = user_id user ->
              fst (DELETE_tasks_id user taskId w)
              = res_json (JMessage "Task deleted successfully")
              /\ d' = removed
              /\ Task.findByPk (tasks d') taskId = None)
      end).
Proof.
  destruct w as [d fs]. cbv zeta.
  assert (Hauth : forall task,
    negb (role user =? "admin")%string
    && negb (Task.createdBy task =? user_id user) = true
    <-> role user <> "admin" /\ Task.createdBy task <> user_id user).
  { intros task. rewrite andb_true_iff, !negb_true_iff.
    rewrite String.eqb_neq, Z.eqb_neq. tauto. }
  assert (Hgone : Task.findByPk
                    (filter (fun r => negb (Task.id r =? taskId)) (tasks d)) taskId
                  = None).
  { apply find_none_of. intros r Hr. apply filter_In in Hr.
    destruct Hr as [_ Hr]. now apply negb_true_iff in Hr. }
  unfold DELETE_tasks_id, try_catch, bind, Task_findByPk, task_destroy,
    write_tasks, await, read, ret.
  cbn.
  split; [| split].
  - destruct fs as [|[|] fs]; cbn; auto;
      destruct (Task.findByPk (tasks d) taskId) as [task|] eqn:Hfind; cbn; auto;
      destruct (findByPk_id _ _ _ Hfind) as [Hid _];
      destruct (negb (role user =? "admin")%string
                && negb (Task.createdBy task =? user_id user)); cbn; auto.
    + right. unfold Task.destroy, with_tasks. now rewrite Hid.
    + destruct fs as [|[|] fs]; cbn; auto; right;
        unfold Task.destroy, with_tasks; now rewrite Hid.
  - intros task Hfind Hrole Hcreator.
    destruct fs as [|[|] fs]; cbn; auto; rewrite Hfind; cbn;
      rewrite (proj2 (Hauth task) (conj Hrole Hcreator)); reflexivity.
  - intros ->. cbn.
    destruct (Task.findByPk (tasks d) taskId) as [task|] eqn:Hfind; cbn;
      [| now split].
    destruct (findByPk_id _ _ _ Hfind) as [Hid _].
    split.
    + intros H. apply Hauth in H. rewrite H. now split.
    + intros H.
      destruct (negb (role user =? "admin")%string
                && negb (Task.createdBy task =? user_id user)) eqn:E.
      { apply Hauth in E. tauto. }
      cbn. unfold Task.destroy. rewrite Hid. repeat split. exact Hgone.
Qed.

Lemma task_deletion_is_guarded_witness :
  db (snd (DELETE_tasks_id {| user_id := 2; role := "member" |} 3 (calm board)))
  = board
  /\ fst (DELETE_tasks_id {| user_id := 1; role := "member" |} 3 (calm board))
     = res_json (JMessage "Task deleted successfully").
Proof.
  split.
  - apply (proj1 (proj2 (task_deletion_is_guarded
                           {| user_id := 2; role := "member" |} 3 (calm board)))
             (a_task 3 10 2)); [reflexivity | discriminate | discriminate].
  - apply (proj2 (proj2 (proj2 (task_deletion_is_guarded
                           {| user_id := 1; role := "member" |} 3 (calm board)))
                    eq_refl)).
    right. reflexivity.
Defined.

(** X15 — the UPDATEs of a reorder are issued together ([Promise.all]);
    for a list without repeated identifiers the lanes end the same in
    whatever order the storage layer executes them: the table after the
    handler is the table after the updates applied in any order. *)
Theorem reorder_is_schedule_independent projectId statusIds us d :
  NoDup statusIds ->
  Permutation (indexed statusIds 0) us ->
  project_statuses
    (db (snd (PUT_statuses_reorder projectId (Some statusIds) (calm d))))
  = map (apply_updates projectId us) (project_statuses d).
Proof.
  intros Hnd Hperm.
  unfold PUT_statuses_reorder, try_catch, bind.
  rewrite Promise_all_updates_calm. cbn.
  apply map_ext. intros s. symmetry.
  now apply reorder_order_irrelevant.
Qed.

Lemma reorder_is_schedule_independent_witness :
  project_statuses
    (db (snd (PUT_statuses_reorder 1 (Some [12; 10; 11]) (calm board))))
  = map (apply_updates 1 [(11, 2); (12, 0); (10, 1)]) (project_statuses board).
Proof.
  apply reorder_is_schedule_independent.
  - repeat constructor; simpl; intuition discriminate.
  - simpl. apply Permutation_sym.
    apply (Permutation_cons_app [(12, 0); (10, 1)] [] (11, 2)).
    rewrite app_nil_r. reflexivity.
Defined.


(** *** How far a move displaces the other tasks *)

Lemma nudged_refl r : nudged r r.
Proof. split; [now destruct r | rewrite Z.sub_diag; simpl; lia]. Qed.

(** X16 — whatever the request and whatever calls the storage layer
    rejects, PUT /api/tasks/:id/status keeps every row in its place in
    the table, and changes a task other than the moved one in its
    position only, by one place at most: such a task never changes lane
    or completion time, even when the move fails midway. *)
Theorem move_nudges_other_tasks now id status_id position w :
  Forall2 (fun r r' =>
             Task.id r' = Task.id r
             /\ (Task.id r <> id ->
                 nudged r r'
                 /\ Task.status_id r' = Task.status_id r
                 /\ Task.completedAt r' = Task.completedAt r))
          (tasks (db w))
          (tasks (db (snd (PUT_tasks_id_status now id status_id position w)))).
Proof.
  rewrite move_keeps_db. apply Forall2_refl_of.
  intros r. split; [reflexivity |]. intros _.
  split; [apply nudged_refl | split; reflexivity].
Qed.
